(** * composable-rules: the rule evaluator and its entry points

    A shallow embedding of [src/index.ts] (matcher combinators, rule
    builders, [runHelp] with its three list walkers, [detailedRun] and
    [run]) together with the properties of its specification.

    Matchers, actions, mappers and transformers are arbitrary JavaScript
    functions: they may throw and they may touch the world outside the rule
    tree (the test-suite uses spies and counters).  They are therefore
    modelled as computations in a state-and-exception monad over an abstract
    world [W]; "this function is never invoked" then reads "the world is
    left as it was, and a throwing function does no harm". *)

From Stdlib Require Import List String Bool Arith Lia.
Import ListNotations.

Set Implicit Arguments.

(** ** Computations: a world, and a result or a thrown exception *)

(** What a JavaScript [throw] carries: a [TypeError] raised by the runtime
    itself (calling [undefined], destructuring [null], ...) or a value
    thrown by the caller's function. *)
Inductive Exn (E : Type) : Type :=
| TypeError : Exn E
| Thrown (e : E) : Exn E.
Arguments TypeError {E}.

Inductive Outcome (E A : Type) : Type :=
| Ok (a : A) : Outcome E A
| Raise (x : Exn E) : Outcome E A.
Arguments Ok {E A} a.
Arguments Raise {E A} x.

Definition M (W E A : Type) : Type := W -> Outcome E A * W.

Definition ret {W E A} (a : A) : M W E A := fun w => (Ok a, w).

Definition throw {W E A} (x : Exn E) : M W E A := fun w => (Raise x, w).

Definition bind {W E A B} (m : M W E A) (k : A -> M W E B) : M W E B :=
  fun w =>
    match m w with
    | (Ok a, w') => k a w'
    | (Raise x, w') => (Raise x, w')
    end.

(** [try { m } catch (err) { h err }] *)
Definition try_catch {W E A} (m : M W E A) (h : Exn E -> M W E A) : M W E A :=
  fun w =>
    match m w with
    | (Ok a, w') => (Ok a, w')
    | (Raise x, w') => h x w'
    end.

Declare Scope js_scope.
Delimit Scope js_scope with js.
Notation "x <- m ;; k" := (bind m (fun x => k))
  (at level 61, m at next level, right associativity) : js_scope.
Local Open Scope js_scope.

(** Calling a property that should hold a function: [obj.f(a)] is a
    [TypeError] when the property is absent. *)
Definition call1 {W E A B} (fn : option (A -> M W E B)) (a : A) : M W E B :=
  match fn with
  | Some g => g a
  | None => throw TypeError
  end.

Definition call2 {W E A B C} (fn : option (A -> B -> M W E C)) (a : A) (b : B)
  : M W E C :=
  match fn with
  | Some g => g a b
  | None => throw TypeError
  end.

(** [Array.prototype.some], [every] and [reduce] with a callback that is a
    computation: [some] stops at the first [true], [every] at the first
    [false], [reduce] visits every element from the left. *)
Section ArrayMethods.
Context {W E A S : Type}.

Fixpoint some (check : A -> M W E bool) (xs : list A) : M W E bool :=
  match xs with
  | [] => ret false
  | x :: xs' => b <- check x ;; if b then ret true else some check xs'
  end.

Fixpoint every (check : A -> M W E bool) (xs : list A) : M W E bool :=
  match xs with
  | [] => ret true
  | x :: xs' => b <- check x ;; if b then every check xs' else ret false
  end.

Variable reducer : S -> A -> M W E S.

Fixpoint reduce (xs : list A) (acc : S) : M W E S :=
  match xs with
  | [] => ret acc
  | x :: xs' => acc' <- reducer acc x ;; reduce xs' acc'
  end.

End ArrayMethods.

(** ** Currying to a fixed arity *)

(** [resolver(...args)] is a function that remembers [args].  Called with
    [innerArgs] it either has enough arguments and calls [fn] on all of
    them, or returns [resolver] of all of them: [Resolver allArgs] stands
    for that function, to be called as [resolver allArgs].  A call without
    arguments counts as one [undefined].  [curryToArity(fn, arity)] is
    [resolver()]. *)
Section Currying.
Context {A R : Type}.
Variable undefined : A.
Variable fn : list A -> R.
Variable arity : nat.

Inductive Curried : Type :=
| Returned (r : R)
| Resolver (args : list A).

Definition resolver (args innerArgs : list A) : Curried :=
  let newArgs :=
    if negb (arity =? 0) && (List.length innerArgs =? 0)
    then [undefined] else innerArgs in
  let allArgs := args ++ newArgs in
  if arity <=? List.length allArgs then Returned (fn allArgs) else Resolver allArgs.

Definition curryToArity : list A -> Curried := resolver [].

End Currying.
Arguments Returned {A R} r.
Arguments Resolver {A R} args.

(** ** Matchers and their combinators *)

(** [type Matcher = (facts?, input?) => boolean] and its companions. *)
Definition Matcher (W E F V : Type) : Type := F -> V -> M W E bool.
Definition Mapper (W E F : Type) : Type := F -> M W E F.
Definition Action (W E F V : Type) : Type := F -> V -> M W E V.
Definition Transformer (W E V : Type) : Type := V -> M W E V.

Module Matchers.
Section Combinators.
Context {W E F V : Type}.

Definition always : Matcher W E F V := fun _ _ => ret true.

Definition not (matcher : Matcher W E F V) : Matcher W E F V :=
  fun facts value => b <- matcher facts value ;; ret (negb b).

Definition one (matchers : list (Matcher W E F V)) : Matcher W E F V :=
  fun facts value => some (fun check => check facts value) matchers.

Definition all (matchers : list (Matcher W E F V)) : Matcher W E F V :=
  fun facts value => every (fun check => check facts value) matchers.

End Combinators.
End Matchers.

(** ** The rule model *)

(** [type RuleResult = { foundMatch: boolean; value: Value }] *)
Record RuleResult (V : Type) : Type := mkResult { foundMatch : bool; value : V }.

(** A rule is a JavaScript object: a [type] tag that may be absent or be any
    string, and the properties that [runHelp] reads, each of which may be
    absent.  The builders below fill in what their variant needs. *)
#[local] Unset Elimination Schemes.
Inductive Rule (W E F V : Type) : Type := mkRule {
  type : option string;
  matcher : option (Matcher W E F V);
  action : option (Action W E F V);
  mapper : option (Mapper W E F);
  childRule : option (Rule W E F V);
  transformer : option (Transformer W E V);
  rule : option (Rule W E F V);
  rules : option (list (Rule W E F V))
}.
#[local] Set Elimination Schemes.

(** The arms of [switch (rule.type)]: six string cases and [default], which
    also takes an absent tag. *)
Inductive Arm : Type :=
| CaseInjected | CaseTransformed | CaseIf
| CaseAll | CaseFirst | CaseChain | CaseDefault.

Definition switch (tag : option string) : Arm :=
  match tag with
  | None => CaseDefault
  | Some t =>
      if String.eqb t "injected" then CaseInjected
      else if String.eqb t "transformed" then CaseTransformed
      else if String.eqb t "if" then CaseIf
      else if String.eqb t "all" then CaseAll
      else if String.eqb t "first" then CaseFirst
      else if String.eqb t "chain" then CaseChain
      else CaseDefault
  end.

(** *** Rule builders *)

Section Builders.
Context {W E F V : Type}.

(** The object literal [{ matcher, action }] of a plain rule. *)
Definition plainRule (m : Matcher W E F V) (a : Action W E F V) : Rule W E F V :=
  mkRule None (Some m) (Some a) None None None None None.

Definition injectFacts (mp : Mapper W E F) (r : Rule W E F V) : Rule W E F V :=
  mkRule (Some "injected"%string) None None (Some mp) (Some r) None None None.

Definition transformOutput (fn : Transformer W E V) (r : Rule W E F V)
  : Rule W E F V :=
  mkRule (Some "transformed"%string) None None None None (Some fn) (Some r) None.

Definition applyIf (m : Matcher W E F V) (r : Rule W E F V) : Rule W E F V :=
  mkRule (Some "if"%string) (Some m) None None None None (Some r) None.

Definition applyAll (rs : list (Rule W E F V)) : Rule W E F V :=
  mkRule (Some "all"%string) None None None None None None (Some rs).

Definition applyFirst (rs : list (Rule W E F V)) : Rule W E F V :=
  mkRule (Some "first"%string) None None None None None None (Some rs).

Definition applyChain (rs : list (Rule W E F V)) : Rule W E F V :=
  mkRule (Some "chain"%string) None None None None None None (Some rs).

End Builders.

(** ** The evaluator *)

(** The three list walkers call [runHelp] back.  They are first written over
    the function they call; [runHelp] then ties the knot. *)
Module Walk.
Section Walkers.
Context {W E F V : Type}.
Variable runHelp : Rule W E F V -> F -> RuleResult V -> M W E (RuleResult V).

Definition runAllMatchingRules (rules : list (Rule W E F V)) (facts : F)
  (state : RuleResult V) : M W E (RuleResult V) :=
  let reducer (currentState : RuleResult V) (currentRule : Rule W E F V) :=
    newState <- runHelp currentRule facts currentState ;;
    ret {| foundMatch := foundMatch currentState || foundMatch newState;
           value := value newState |} in
  reduce reducer rules state.

Fixpoint runFirstMatchingRule (rules : list (Rule W E F V)) (facts : F)
  (state : RuleResult V) : M W E (RuleResult V) :=
  match rules with
  | [] => ret state
  | nextRule :: remainingRules =>
      r <- runHelp nextRule facts state ;;
      if foundMatch r
      then ret {| foundMatch := foundMatch r; value := value r |}
      else runFirstMatchingRule remainingRules facts state
  end.

Fixpoint runChainOfRules (rules : list (Rule W E F V)) (facts : F)
  (state : RuleResult V) : M W E (RuleResult V) :=
  match rules with
  | [] => ret state
  | nextRule :: remainingRules =>
      r <- runHelp nextRule facts state ;;
      if foundMatch r
      then runChainOfRules remainingRules facts
             {| foundMatch := foundMatch r; value := value r |}
      else ret state
  end.

End Walkers.
End Walk.

Section Evaluator.
Context {W E F V : Type}.

(** [runHelp]: one arm per [case].  A property read that yields [undefined]
    where an object, an array or a function is needed raises [TypeError],
    in the order in which JavaScript evaluates the operands.  The call
    stack is not part of the model: the [RangeError] that JavaScript raises
    on a tree too deep or a list too long for it has no counterpart here,
    and no statement below says that an evaluation is free of failure. *)
Fixpoint runHelp (node : Rule W E F V) (facts : F) (state : RuleResult V)
  {struct node} : M W E (RuleResult V) :=
  match switch (type node) with
  | CaseInjected =>
      facts' <- call1 (mapper node) facts ;;
      match childRule node with
      | Some child => runHelp child facts' state
      | None => throw TypeError
      end
  | CaseTransformed =>
      r <- match rule node with
           | Some child => runHelp child facts state
           | None => throw TypeError
           end ;;
      v <- (if foundMatch r then call1 (transformer node) (value r)
            else ret (value r)) ;;
      ret {| foundMatch := foundMatch r; value := v |}
  | CaseIf =>
      b <- call2 (matcher node) facts (value state) ;;
      if b
      then match rule node with
           | Some subRule => runHelp subRule facts state
           | None => throw TypeError
           end
      else ret {| foundMatch := false; value := value state |}
  | CaseAll =>
      match rules node with
      | Some rs => Walk.runAllMatchingRules runHelp rs facts state
      | None => throw TypeError
      end
  | CaseFirst =>
      match rules node with
      | Some rs => Walk.runFirstMatchingRule runHelp rs facts state
      | None => throw TypeError
      end
  | CaseChain =>
      match rules node with
      | Some rs => Walk.runChainOfRules runHelp rs facts state
      | None => throw TypeError
      end
  | CaseDefault =>
      b <- call2 (matcher node) facts (value state) ;;
      if b
      then v <- call2 (action node) facts (value state) ;;
           ret {| foundMatch := true; value := v |}
      else ret {| foundMatch := false; value := value state |}
  end.

Definition runAllMatchingRules := Walk.runAllMatchingRules runHelp.
Definition runFirstMatchingRule := Walk.runFirstMatchingRule runHelp.
Definition runChainOfRules := Walk.runChainOfRules runHelp.

(** ** Entry points *)

(** Both entry points are [curryToArity(fn, 3)].  Given a rule, the facts
    and an initial value, at once or in stages, the curried function calls
    [fn] on the three (see [resolver_at_once] and [resolver_in_stages]
    below); the two definitions are these [fn].  The pair [[err, result]]
    is a pair of options, [None] standing for [null]. *)
Definition detailedRun (node : Rule W E F V) (facts : F) (initialValue : V)
  : M W E (option (Exn E) * option (RuleResult V)) :=
  let state := {| foundMatch := false; value := initialValue |} in
  try_catch
    (result <- runHelp node facts state ;; ret (None, Some result))
    (fun err => ret (Some err, None)).

(** [const [err, { value }] = detailedRun(...)]: the pattern [{ value }]
    destructures the second element, which raises [TypeError] on [null]. *)
Definition run (node : Rule W E F V) (facts : F) (initialValue : V)
  : M W E (option (Exn E) * option V) :=
  p <- detailedRun node facts initialValue ;;
  match p with
  | (err, Some result) => ret (err, Some (value result))
  | (err, None) => throw TypeError
  end.

End Evaluator.

(** ** Rules of the test-suite *)

(** The world of the examples is a counter of calls: a function wrapped in
    [spy] bumps it each time it is invoked. *)
Module Samples.

Definition World : Type := nat.
Definition Err : Type := string.
Definition Facts : Type := nat.
Definition Val : Type := list nat.

Definition spy {A} (m : M World Err A) : M World Err A :=
  fun w => m (S w).

(** [makeRule(pass, value)] of the tests, with both functions spied on. *)
Definition makeRule (pass : bool) (v : nat) : Rule World Err Facts Val :=
  plainRule (fun _ _ => spy (ret pass))
            (fun _ l => spy (ret (l ++ [v]))).

(** A matching rule whose action throws, as in the error-handling tests. *)
Definition boomRule : Rule World Err Facts Val :=
  plainRule (fun _ _ => ret true)
            (fun _ _ => throw (Thrown "BOOM!"%string)).

(** A transformer that appends a mark, one that throws, and a gate. *)
Definition mark (v : nat) : Transformer World Err Val :=
  fun l => spy (ret (l ++ [v])).
Definition boomTransformer : Transformer World Err Val :=
  fun _ => throw (Thrown "BOOM!"%string).
Definition gate (pass : bool) : Matcher World Err Facts Val :=
  fun _ _ => spy (ret pass).

(** [makeRule] with an explicit tag: ["plain"], which the type [PlainRule]
    allows, or any other string. *)
Definition taggedRule (tag : string) (pass : bool) (v : nat)
  : Rule World Err Facts Val :=
  mkRule (Some tag) (matcher (makeRule pass v)) (action (makeRule pass v))
         None None None None None.

(** [isTwo] of the tests, a rule that records the facts it sees, and a
    mapper that only computes. *)
Definition isTwo : Matcher World Err Facts Val :=
  fun facts _ => spy (ret (facts =? 2)).
Definition factsRule : Rule World Err Facts Val :=
  plainRule isTwo (fun facts l => spy (ret (l ++ [facts]))).
Definition bump : Mapper World Err Facts :=
  fun facts => ret (S facts).

Definition hit (v : nat) : Rule World Err Facts Val := makeRule true v.
Definition miss (v : nat) : Rule World Err Facts Val := makeRule false v.

(** The state an entry point starts from, and states as rules return them. *)
Definition initial (l : Val) : RuleResult Val :=
  {| foundMatch := false; value := l |}.
Definition seen (l : Val) : RuleResult Val :=
  {| foundMatch := true; value := l |}.
Definition unseen (l : Val) : RuleResult Val :=
  {| foundMatch := false; value := l |}.

End Samples.

(** ** Vocabulary of the statements *)

Definition onOption {A} (Q : A -> Prop) (o : option A) : Prop :=
  match o with
  | Some a => Q a
  | None => True
  end.

Section Vocabulary.
Context {W E F V : Type}.
Implicit Types (node child : Rule W E F V) (facts : F) (state : RuleResult V).
Implicit Types (w : W).

(** A node that, whenever it reports no match, hands the value back. *)
Definition keepsValue node : Prop :=
  forall facts state w res w',
    runHelp node facts state w = (Ok res, w') ->
    foundMatch res = false ->
    value res = value state.

(** [allMiss rs facts state w w']: the rules [rs], each evaluated against
    the same [state], one after the other from world [w], all return
    normally with [foundMatch = false] and leave the world [w']. *)
Fixpoint allMiss (rs : list (Rule W E F V)) facts state w w' : Prop :=
  match rs with
  | [] => w' = w
  | child :: rs' =>
      exists res w1,
        runHelp child facts state w = (Ok res, w1) /\
        foundMatch res = false /\
        allMiss rs' facts state w1 w'
  end.

(** [allHit rs facts state w state' w']: the rules [rs], each evaluated
    against the result of the one before it (the first against [state]),
    all return normally with [foundMatch = true]; [state'] is the last
    result ([state] itself when [rs] is empty) and [w'] the last world. *)
Fixpoint allHit (rs : list (Rule W E F V)) facts state w state' w' : Prop :=
  match rs with
  | [] => state' = state /\ w' = w
  | child :: rs' =>
      exists res w1,
        runHelp child facts state w = (Ok res, w1) /\
        foundMatch res = true /\
        allHit rs' facts res w1 state' w'
  end.

(** [folded rs facts state w ns w']: [ns] lists, in order, what each rule of
    [rs] returns when the first is evaluated against [state] and every
    later one against the value its predecessor returned, paired with the
    flag accumulated so far. *)
Fixpoint folded (rs : list (Rule W E F V)) facts state w
  (ns : list (RuleResult V)) w' : Prop :=
  match rs, ns with
  | [], [] => w' = w
  | child :: rs', n :: ns' =>
      exists w1,
        runHelp child facts state w = (Ok n, w1) /\
        folded rs' facts
          {| foundMatch := foundMatch state || foundMatch n; value := value n |}
          w1 ns' w'
  | _, _ => False
  end.


(** The sentence "the flag of an all-of is the OR of its children's flags",
    as it stands. *)
Definition allFlagIsOrOfChildren : Prop :=
  forall (rs : list (Rule W E F V)) facts state w ns w',
    folded rs facts state w ns w' ->
    exists res,
      runHelp (applyAll rs) facts state w = (Ok res, w') /\
      foundMatch res = existsb (@foundMatch V) ns.

End Vocabulary.

(** The tags that [runHelp] has a [case] for. *)
Definition recognizedTags : list string :=
  ["injected"; "transformed"; "if"; "all"; "first"; "chain"]%string.

(** ** The entry points of [src/index.js] *)

(** The JavaScript build has the same [runHelp] and walkers, and entry
    points without [try]: [run] answers the value itself, and [detailedRun]
    answers the result when it is matched and [{ value: null, foundMatch:
    false }] otherwise ([None] stands for [null]). *)
Module IndexJs.
Section EntryPoints.
Context {W E F V : Type}.

Definition run (node : Rule W E F V) (facts : F) (initialValue : V)
  : M W E V :=
  let state := {| foundMatch := false; value := initialValue |} in
  result <- runHelp node facts state ;;
  ret (value result).

Definition detailedRun (node : Rule W E F V) (facts : F) (initialValue : V)
  : M W E (RuleResult (option V)) :=
  let state := {| foundMatch := false; value := initialValue |} in
  result <- runHelp node facts state ;;
  ret (if foundMatch result
       then {| foundMatch := foundMatch result; value := Some (value result) |}
       else {| foundMatch := false; value := None |}).

End EntryPoints.
End IndexJs.

(** ** More vocabulary *)

Section CallSequences.
Context {A R : Type}.
Variable undefined : A.
Variable fn : list A -> R.
Variable arity : nat.

(** [feed args groups]: the function [resolver(...args)] is called with the
    first group of arguments, what it returns with the second, and so on,
    up to the first result of [fn]. *)
Fixpoint feed (args : list A) (groups : list (list A)) : Curried :=
  match groups with
  | [] => Resolver args
  | g :: gs =>
      match resolver undefined fn arity args g with
      | Returned r => Returned r
      | Resolver allArgs => feed allArgs gs
      end
  end.

End CallSequences.

Section MoreVocabulary.
Context {W E F V : Type}.

(** [allAnswer b ms facts v w w']: the matchers [ms], called one after the
    other on [facts] and [v] from world [w], all answer [b] and leave the
    world [w']. *)
Fixpoint allAnswer (b : bool) (ms : list (Matcher W E F V)) (facts : F) (v : V)
  (w w' : W) : Prop :=
  match ms with
  | [] => w' = w
  | m :: ms' =>
      exists w1, m facts v w = (Ok b, w1) /\ allAnswer b ms' facts v w1 w'
  end.

(** A mapper that computes [g] and does nothing else. *)
Definition pureMapper (mp : Mapper W E F) (g : F -> F) : Prop :=
  forall facts w, mp facts w = (Ok (g facts), w).

(** Two rules that cannot be told apart by evaluating them. *)
Definition sameRule (a b : Rule W E F V) : Prop :=
  forall facts state w, runHelp a facts state w = runHelp b facts state w.

End MoreVocabulary.

(** * Properties *)

(** ** Running a computation *)

Section MonadFacts.
Context {W E A B : Type}.

Lemma bind_run (m : M W E A) (k : A -> M W E B) (w : W) :
  bind m k w =
  match m w with
  | (Ok a, w') => k a w'
  | (Raise x, w') => (Raise x, w')
  end.
Proof. reflexivity. Qed.

Lemma bind_ok_inv (m : M W E A) (k : A -> M W E B) w b w2 :
  bind m k w = (Ok b, w2) ->
  exists a w1, m w = (Ok a, w1) /\ k a w1 = (Ok b, w2).
Proof.
  rewrite bind_run. destruct (m w) as [[a | x] w1]; intros H.
  - exists a, w1. split; [reflexivity | exact H].
  - discriminate H.
Qed.

Lemma ret_ok_inv (a b : A) (w w' : W) :
  @ret W E A a w = (Ok b, w') -> b = a /\ w' = w.
Proof. unfold ret. intros H. inversion H. split; reflexivity. Qed.

End MonadFacts.

(** Splits a successful run of a [bind] into its two halves. *)
Ltac run_inv H :=
  let a := fresh "r" in
  let w := fresh "w" in
  let H1 := fresh "Hrun" in
  apply bind_ok_inv in H; destruct H as (a & w & H1 & H).

Ltac ret_inv H :=
  apply ret_ok_inv in H; destruct H; subst.

(** ** Currying *)

Section CurryingFacts.
Context {A R : Type}.
Variables (undefined : A) (fn : list A -> R).

Lemma resolver_at_once (a b c : A) :
  curryToArity undefined fn 3 [a; b; c] = Returned (fn [a; b; c]).
Proof. reflexivity. Qed.

(** [f(a)(b, c)], the way the test-suite calls [run], and [f(a)(b)(c)]. *)
Lemma resolver_in_stages (a b c : A) :
  curryToArity undefined fn 3 [a] = Resolver [a] /\
  resolver undefined fn 3 [a] [b; c] = Returned (fn [a; b; c]) /\
  resolver undefined fn 3 [a] [b] = Resolver [a; b] /\
  resolver undefined fn 3 [a; b] [c] = Returned (fn [a; b; c]).
Proof. repeat split. Qed.

(** [f()()()] ends with [fn(undefined, undefined, undefined)]. *)
Lemma resolver_without_arguments :
  curryToArity undefined fn 3 [] = Resolver [undefined] /\
  resolver undefined fn 3 [undefined] [] = Resolver [undefined; undefined] /\
  resolver undefined fn 3 [undefined; undefined] []
    = Returned (fn [undefined; undefined; undefined]).
Proof. repeat split. Qed.

End CurryingFacts.

(** ** Induction over a rule tree *)

(** A rule nests rules under [childRule], [rule] and [rules]; the induction
    hypothesis covers whichever of them is present. *)
Lemma Rule_ind {W E F V : Type} (P : Rule W E F V -> Prop) :
  (forall t m a mp c tr r rs,
      onOption P c -> onOption P r -> onOption (Forall P) rs ->
      P (mkRule t m a mp c tr r rs)) ->
  forall node, P node.
Proof.
  intros step. fix self 1. intros [t m a mp c tr r rs].
  apply step.
  - destruct c as [child |]; simpl; [apply self | exact I].
  - destruct r as [child |]; simpl; [apply self | exact I].
  - destruct rs as [l |]; simpl; [| exact I].
    induction l as [| x l IH]; constructor; [apply self | exact IH].
Qed.

(** ** The evaluator, one arm at a time *)

Section EvaluatorFacts.
Context {W E F V : Type}.
Implicit Types (node child : Rule W E F V) (facts : F) (state : RuleResult V).
Implicit Types (w : W).

Lemma result_eta (r : RuleResult V) :
  {| foundMatch := foundMatch r; value := value r |} = r.
Proof. destruct r; reflexivity. Qed.

Lemma runHelp_unfold node facts state :
  runHelp node facts state =
  match switch (type node) with
  | CaseInjected =>
      facts' <- call1 (mapper node) facts ;;
      match childRule node with
      | Some child => runHelp child facts' state
      | None => throw TypeError
      end
  | CaseTransformed =>
      r <- match rule node with
           | Some child => runHelp child facts state
           | None => throw TypeError
           end ;;
      v <- (if foundMatch r then call1 (transformer node) (value r)
            else ret (value r)) ;;
      ret {| foundMatch := foundMatch r; value := v |}
  | CaseIf =>
      b <- call2 (matcher node) facts (value state) ;;
      if b
      then match rule node with
           | Some subRule => runHelp subRule facts state
           | None => throw TypeError
           end
      else ret {| foundMatch := false; value := value state |}
  | CaseAll =>
      match rules node with
      | Some rs => runAllMatchingRules rs facts state
      | None => throw TypeError
      end
  | CaseFirst =>
      match rules node with
      | Some rs => runFirstMatchingRule rs facts state
      | None => throw TypeError
      end
  | CaseChain =>
      match rules node with
      | Some rs => runChainOfRules rs facts state
      | None => throw TypeError
      end
  | CaseDefault =>
      b <- call2 (matcher node) facts (value state) ;;
      if b
      then v <- call2 (action node) facts (value state) ;;
           ret {| foundMatch := true; value := v |}
      else ret {| foundMatch := false; value := value state |}
  end.
Proof. destruct node; reflexivity. Qed.

Lemma runAll_nil facts state : runAllMatchingRules (@nil (Rule W E F V)) facts state = ret state.
Proof. reflexivity. Qed.

Lemma runAll_cons child (rs : list (Rule W E F V)) facts state :
  runAllMatchingRules (child :: rs) facts state =
  (folded <- (newState <- runHelp child facts state ;;
              ret {| foundMatch := foundMatch state || foundMatch newState;
                     value := value newState |}) ;;
   runAllMatchingRules rs facts folded).
Proof. reflexivity. Qed.

Lemma runFirst_nil facts state : runFirstMatchingRule (@nil (Rule W E F V)) facts state = ret state.
Proof. reflexivity. Qed.

Lemma runFirst_cons child (rs : list (Rule W E F V)) facts state :
  runFirstMatchingRule (child :: rs) facts state =
  (r <- runHelp child facts state ;;
   if foundMatch r
   then ret {| foundMatch := foundMatch r; value := value r |}
   else runFirstMatchingRule rs facts state).
Proof. reflexivity. Qed.

Lemma runChain_nil facts state : runChainOfRules (@nil (Rule W E F V)) facts state = ret state.
Proof. reflexivity. Qed.

Lemma runChain_cons child (rs : list (Rule W E F V)) facts state :
  runChainOfRules (child :: rs) facts state =
  (r <- runHelp child facts state ;;
   if foundMatch r
   then runChainOfRules rs facts
          {| foundMatch := foundMatch r; value := value r |}
   else ret state).
Proof. reflexivity. Qed.

Lemma runHelp_applyAll (rs : list (Rule W E F V)) facts state :
  runHelp (applyAll rs) facts state = runAllMatchingRules rs facts state.
Proof. reflexivity. Qed.

Lemma runHelp_applyFirst (rs : list (Rule W E F V)) facts state :
  runHelp (applyFirst rs) facts state = runFirstMatchingRule rs facts state.
Proof. reflexivity. Qed.

Lemma runHelp_applyChain (rs : list (Rule W E F V)) facts state :
  runHelp (applyChain rs) facts state = runChainOfRules rs facts state.
Proof. reflexivity. Qed.

End EvaluatorFacts.

(** ** An evaluation that matches nothing *)

Section Unmatched.
Context {W E F V : Type}.
Implicit Types (node child : Rule W E F V) (facts : F) (state : RuleResult V).

(** A first-of and a chain-of hand back either the state they were given or
    a state whose flag is set. *)
Lemma runFirst_unmatched (rs : list (Rule W E F V)) facts state w res w' :
  runFirstMatchingRule rs facts state w = (Ok res, w') ->
  foundMatch res = false ->
  res = state.
Proof.
  revert w. induction rs as [| child rs IH]; intros w Hrun Hres.
  - rewrite runFirst_nil in Hrun. ret_inv Hrun. reflexivity.
  - rewrite runFirst_cons in Hrun. run_inv Hrun.
    destruct (foundMatch r) eqn:Hm.
    + ret_inv Hrun. simpl in Hres. congruence.
    + eapply IH; eassumption.
Qed.

Lemma runChain_unmatched (rs : list (Rule W E F V)) facts state w res w' :
  runChainOfRules rs facts state w = (Ok res, w') ->
  foundMatch res = false ->
  res = state.
Proof.
  revert state w. induction rs as [| child rs IH]; intros state w Hrun Hres.
  - rewrite runChain_nil in Hrun. ret_inv Hrun. reflexivity.
  - rewrite runChain_cons in Hrun. run_inv Hrun.
    destruct (foundMatch r) eqn:Hm.
    + apply IH in Hrun; [| assumption]. subst res. simpl in Hres. congruence.
    + ret_inv Hrun. reflexivity.
Qed.

(** An all-of whose result is unmatched started unmatched and saw no child
    match; each child then kept the value. *)
Lemma runAll_unmatched (rs : list (Rule W E F V)) facts state w res w' :
  Forall keepsValue rs ->
  runAllMatchingRules rs facts state w = (Ok res, w') ->
  foundMatch res = false ->
  foundMatch state = false /\ value res = value state.
Proof.
  intros Hrs. revert state w.
  induction Hrs as [| child rs Hchild _ IH]; intros state w Hrun Hres.
  - rewrite runAll_nil in Hrun. ret_inv Hrun. split; [assumption | reflexivity].
  - rewrite runAll_cons in Hrun. run_inv Hrun. run_inv Hrun0. ret_inv Hrun0.
    destruct (IH _ _ Hrun Hres) as [Hacc Hval]. simpl in Hacc, Hval.
    apply orb_false_iff in Hacc. destruct Hacc as [Hs Hn].
    split; [assumption |].
    rewrite Hval. eapply Hchild; eassumption.
Qed.

Lemma runHelp_keepsValue node : keepsValue node.
Proof.
  induction node as [t m a mp c tr r rs IHc IHr IHrs] using Rule_ind.
  intros facts state w res w' Hrun Hres.
  rewrite runHelp_unfold in Hrun. simpl in Hrun.
  destruct (switch t).
  - (* injected *)
    run_inv Hrun. destruct c as [child |]; [| discriminate Hrun].
    eapply IHc; eassumption.
  - (* transformed *)
    run_inv Hrun. run_inv Hrun. ret_inv Hrun. simpl in Hres.
    rewrite Hres in Hrun1. ret_inv Hrun1. simpl.
    destruct r as [child |]; [| discriminate Hrun0].
    eapply IHr; eassumption.
  - (* if *)
    run_inv Hrun. destruct r0.
    + destruct r as [child |]; [| discriminate Hrun].
      eapply IHr; eassumption.
    + ret_inv Hrun. reflexivity.
  - (* all *)
    destruct rs as [rs |]; [| discriminate Hrun].
    eapply runAll_unmatched; eassumption.
  - (* first *)
    destruct rs as [rs |]; [| discriminate Hrun].
    apply runFirst_unmatched in Hrun; [| assumption]. subst; reflexivity.
  - (* chain *)
    destruct rs as [rs |]; [| discriminate Hrun].
    apply runChain_unmatched in Hrun; [| assumption]. subst; reflexivity.
  - (* default *)
    run_inv Hrun. destruct r0.
    + run_inv Hrun. ret_inv Hrun. discriminate Hres.
    + ret_inv Hrun. reflexivity.
Qed.

End Unmatched.

(** ** Matcher combinators *)

Section MatcherClaims.
Context {W E F V : Type}.
Implicit Types (m : Matcher W E F V) (facts : F) (v : V) (w : W).

(** C8.  Negating a matcher twice gives back a matcher with the behaviour of
    the original: called on the same facts and value in the same world,
    [not (not m)] returns the boolean [m] returns, raises what [m] raises
    and leaves the world where [m] leaves it. *)
Theorem not_not_same_behaviour m facts v w :
  Matchers.not (Matchers.not m) facts v w = m facts v w.
Proof.
  unfold Matchers.not. rewrite !bind_run.
  destruct (m facts v w) as [[b | x] w']; simpl; [| reflexivity].
  unfold ret. rewrite negb_involutive. reflexivity.
Qed.

(** C9.  On the empty list of matchers, whatever the facts and the value,
    [all] (every-of) answers [true] and [one] (any-of) answers [false],
    both without touching the world; so [all []] can be added to a
    conjunction, and [one []] to a disjunction, without changing it. *)
Theorem empty_all_true_empty_one_false facts v w :
  Matchers.all (@nil (Matcher W E F V)) facts v w = (Ok true, w) /\
  Matchers.one (@nil (Matcher W E F V)) facts v w = (Ok false, w) /\
  (forall ms : list (Matcher W E F V),
      Matchers.all (Matchers.all [] :: ms) facts v w
      = Matchers.all ms facts v w) /\
  (forall ms : list (Matcher W E F V),
      Matchers.one (Matchers.one [] :: ms) facts v w
      = Matchers.one ms facts v w).
Proof. repeat split. Qed.

End MatcherClaims.

(** ** Single-child nodes and leaves *)

Section NodeClaims.
Context {W E F V : Type}.
Implicit Types (node child : Rule W E F V) (facts : F) (state : RuleResult V).
Implicit Types (w : W).

(** C5.  A transformed node first evaluates its child with the incoming
    state.  When the child's result is matched, the node's value is the
    transformer applied to the child's value (and the node fails if the
    transformer does); when it is unmatched, the child's value passes
    through and the node returns in the very world the child left, whatever
    the transformer would have done. *)
Theorem transformed_runs_child_then_transformer
  (fn : Transformer W E V) child facts state w res w1
  (Hchild : runHelp child facts state w = (Ok res, w1)) :
  runHelp (transformOutput fn child) facts state w =
  if foundMatch res
  then match fn (value res) w1 with
       | (Ok v, w2) => (Ok {| foundMatch := true; value := v |}, w2)
       | (Raise x, w2) => (Raise x, w2)
       end
  else (Ok {| foundMatch := false; value := value res |}, w1).
Proof.
  rewrite runHelp_unfold. simpl.
  rewrite bind_run, Hchild.
  destruct (foundMatch res); simpl.
  - rewrite bind_run. destruct (fn (value res) w1) as [[v | x] w2]; reflexivity.
  - reflexivity.
Qed.

(** C6.  A conditional node first applies its gate to the facts and the
    incoming value.  On [false] it returns [{foundMatch: false, value:
    state.value}] in the world the gate left, whatever the child is; on
    [true] it is the child evaluated with the incoming state. *)
Theorem conditional_gates_child
  (gate : Matcher W E F V) child facts state w b w1
  (Hgate : gate facts (value state) w = (Ok b, w1)) :
  runHelp (applyIf gate child) facts state w =
  if b
  then runHelp child facts state w1
  else (Ok {| foundMatch := false; value := value state |}, w1).
Proof.
  rewrite runHelp_unfold. simpl.
  rewrite bind_run, Hgate.
  destruct b; reflexivity.
Qed.

Lemma switch_unrecognized (t : string) :
  ~ In t recognizedTags -> switch (Some t) = CaseDefault.
Proof.
  intros Hnot. unfold switch.
  repeat match goal with
  | |- context [String.eqb t ?s] =>
      destruct (String.eqb_spec t s) as [-> | _];
      [exfalso; apply Hnot; simpl; tauto |]
  end.
  reflexivity.
Qed.

(** C10.  A node whose tag is absent, or is a string other than the six
    that [runHelp] has a case for, is evaluated as a plain rule: its
    [matcher] is called on the facts and the incoming value; on [true] the
    result is [{foundMatch: true, value: action(facts, state.value)}], on
    [false] it is [{foundMatch: false, value: state.value}].  No failure
    arises from the tag: the node fails only where calling its [matcher] or
    its [action] does. *)
Theorem unrecognized_tag_runs_as_plain node facts state w
  (Htag : forall t, type node = Some t -> ~ In t recognizedTags) :
  runHelp node facts state w =
  match call2 (matcher node) facts (value state) w with
  | (Ok true, w1) =>
      match call2 (action node) facts (value state) w1 with
      | (Ok v, w2) => (Ok {| foundMatch := true; value := v |}, w2)
      | (Raise x, w2) => (Raise x, w2)
      end
  | (Ok false, w1) => (Ok {| foundMatch := false; value := value state |}, w1)
  | (Raise x, w1) => (Raise x, w1)
  end.
Proof.
  rewrite runHelp_unfold.
  assert (Harm : switch (type node) = CaseDefault).
  { destruct (type node) as [t |]; [| reflexivity].
    apply switch_unrecognized. apply Htag. reflexivity. }
  rewrite Harm, bind_run.
  destruct (call2 (matcher node) facts (value state) w) as [[[|] | x] w1];
    reflexivity.
Qed.

(** C7.  Whenever a node returns normally with [foundMatch = false], the
    value it returns is the value of the state it was given. *)
Theorem unmatched_leaves_value_unchanged node facts state w res w'
  (Hrun : runHelp node facts state w = (Ok res, w'))
  (Hmiss : foundMatch res = false) :
  value res = value state.
Proof. exact (runHelp_keepsValue node _ _ _ Hrun Hmiss). Qed.

End NodeClaims.

(** ** List nodes *)

Section ListClaims.
Context {W E F V : Type}.
Implicit Types (node child : Rule W E F V) (facts : F) (state : RuleResult V).
Implicit Types (pre post rs : list (Rule W E F V)) (w : W).

Lemma runFirst_after_misses pre rs facts state w w1 :
  allMiss pre facts state w w1 ->
  runFirstMatchingRule (pre ++ rs) facts state w =
  runFirstMatchingRule rs facts state w1.
Proof.
  revert w. induction pre as [| c pre IH]; intros w Hpre; simpl in Hpre.
  - subst w1. reflexivity.
  - destruct Hpre as (res & w0 & Hc & Hmiss & Hrest).
    simpl app. rewrite runFirst_cons, bind_run, Hc, Hmiss.
    apply IH. exact Hrest.
Qed.

(** C3.  A first-of evaluates its children in order, each against the
    incoming state.  If the children [pre] all report no match, the node
    over [pre] alone returns the incoming state as it was; and if the next
    child reports a match, the node returns that child's result in the
    world that child left, whatever children [post] follow it. *)
Theorem first_of_returns_first_match pre facts state w w1
  (Hpre : allMiss pre facts state w w1) :
  runHelp (applyFirst pre) facts state w = (Ok state, w1) /\
  forall child post res w2,
    runHelp child facts state w1 = (Ok res, w2) ->
    foundMatch res = true ->
    runHelp (applyFirst (pre ++ child :: post)) facts state w = (Ok res, w2).
Proof.
  split.
  - rewrite runHelp_applyFirst, <- (app_nil_r pre).
    rewrite runFirst_after_misses with (1 := Hpre). reflexivity.
  - intros child post res w2 Hchild Hhit.
    rewrite runHelp_applyFirst, runFirst_after_misses with (1 := Hpre).
    rewrite runFirst_cons, bind_run, Hchild, result_eta, Hhit. reflexivity.
Qed.

Lemma runChain_after_hits pre rs facts state w state1 w1 :
  allHit pre facts state w state1 w1 ->
  runChainOfRules (pre ++ rs) facts state w =
  runChainOfRules rs facts state1 w1.
Proof.
  revert state w. induction pre as [| c pre IH]; intros state w Hpre;
    simpl in Hpre.
  - destruct Hpre as [-> ->]. reflexivity.
  - destruct Hpre as (res & w0 & Hc & Hhit & Hrest).
    simpl app. rewrite runChain_cons, bind_run, Hc, result_eta, Hhit.
    apply IH. exact Hrest.
Qed.


Lemma last_default_irrelevant (A : Type) (x : A) (l : list A) (d d' : A) :
  last (x :: l) d = last (x :: l) d'.
Proof.
  revert x. induction l as [| y l IH]; intros x; [reflexivity |].
  change (last (y :: l) d = last (y :: l) d'). apply IH.
Qed.

(** What the reducer of [runAllMatchingRules] computes.  The fold is seeded
    with the incoming state, so the flag it ends with is the OR of the
    incoming flag and of every child's flag; the value is the value the
    last child returned (the incoming value when there is no child). *)
Theorem all_of_folds_left rs facts state w ns w'
  (Hfold : folded rs facts state w ns w') :
  runHelp (applyAll rs) facts state w =
  (Ok {| foundMatch := foundMatch state || existsb (@foundMatch V) ns;
         value := value (last ns state) |}, w').
Proof.
  rewrite runHelp_applyAll.
  revert state w ns Hfold.
  induction rs as [| c rs IH]; intros state w [| n ns] Hfold; simpl in Hfold;
    try contradiction.
  - subst w'. rewrite runAll_nil. unfold ret. simpl.
    rewrite orb_false_r, result_eta. reflexivity.
  - destruct Hfold as (w0 & Hc & Hrest).
    rewrite runAll_cons, !bind_run, Hc. unfold ret at 1.
    rewrite (IH _ _ _ Hrest). simpl existsb. simpl foundMatch at 1.
    rewrite orb_assoc. f_equal. f_equal. f_equal.
    destruct ns as [| n' ns]; [reflexivity |].
    change (last (n :: n' :: ns) state) with (last (n' :: ns) state).
    f_equal. apply last_default_irrelevant.
Qed.

(** Entered with [foundMatch = false], as from an entry point, an all-of
    does what its comment says: its flag is the OR of its children's
    flags. *)
Lemma all_of_flag_is_or_when_entered_unmatched rs facts state w ns w' :
  foundMatch state = false ->
  folded rs facts state w ns w' ->
  runHelp (applyAll rs) facts state w =
  (Ok {| foundMatch := existsb (@foundMatch V) ns;
         value := value (last ns state) |}, w').
Proof.
  intros Hflag Hfold.
  rewrite (@all_of_folds_left rs facts state w ns w' Hfold), Hflag.
  reflexivity.
Qed.

(** The three statements above cover every evaluation that returns: a
    first-of that returns has met only misses, or misses and then a match; a
    chain-of that returns has met only matches, or matches and then a miss;
    an all-of that returns has folded over all of its children. *)
Lemma runFirst_returns_inv rs facts state w res w' :
  runFirstMatchingRule rs facts state w = (Ok res, w') ->
  (allMiss rs facts state w w' /\ res = state) \/
  (exists pre child post w1,
      rs = pre ++ child :: post /\
      allMiss pre facts state w w1 /\
      runHelp child facts state w1 = (Ok res, w') /\
      foundMatch res = true).
Proof.
  revert w. induction rs as [| c rs IH]; intros w Hrun.
  - rewrite runFirst_nil in Hrun. ret_inv Hrun. left. split; reflexivity.
  - rewrite runFirst_cons in Hrun. run_inv Hrun.
    rewrite result_eta in Hrun.
    destruct (foundMatch r) eqn:Hm.
    + ret_inv Hrun. right.
      exists [], c, rs, w. repeat split; assumption.
    + destruct (IH _ Hrun) as [[Hall ->] | (pre & child & post & w1 & -> & Hpre & Hc & Hhit)].
      * left. split; [| reflexivity]. simpl. exists r, w0. auto.
      * right. exists (c :: pre), child, post, w1.
        repeat split; try assumption. simpl. exists r, w0. auto.
Qed.

Lemma runChain_returns_inv rs facts state w res w' :
  runChainOfRules rs facts state w = (Ok res, w') ->
  allHit rs facts state w res w' \/
  (exists pre child post w1 broke,
      rs = pre ++ child :: post /\
      allHit pre facts state w res w1 /\
      runHelp child facts res w1 = (Ok broke, w') /\
      foundMatch broke = false).
Proof.
  revert state w. induction rs as [| c rs IH]; intros state w Hrun.
  - rewrite runChain_nil in Hrun. ret_inv Hrun. left. split; reflexivity.
  - rewrite runChain_cons in Hrun. run_inv Hrun.
    rewrite result_eta in Hrun.
    destruct (foundMatch r) eqn:Hm.
    + destruct (IH _ _ Hrun)
        as [Hall | (pre & child & post & w1 & broke & -> & Hpre & Hc & Hmiss)].
      * left. simpl. exists r, w0. auto.
      * right. exists (c :: pre), child, post, w1, broke.
        repeat split; try assumption. simpl. exists r, w0. auto.
    + ret_inv Hrun. right. exists [], c, rs, w, r.
      repeat split; assumption.
Qed.

Lemma runAll_returns_inv rs facts state w res w' :
  runAllMatchingRules rs facts state w = (Ok res, w') ->
  exists ns, folded rs facts state w ns w'.
Proof.
  revert state w. induction rs as [| c rs IH]; intros state w Hrun.
  - rewrite runAll_nil in Hrun. ret_inv Hrun. exists []. reflexivity.
  - rewrite runAll_cons in Hrun. run_inv Hrun. run_inv Hrun0. ret_inv Hrun0.
    destruct (IH _ _ Hrun) as [ns Hns].
    exists (r0 :: ns). simpl. exists w1. auto.
Qed.

End ListClaims.

(** ** Entry points *)

Section EntryPoints.
Context {W E F V : Type}.
Implicit Types (node : Rule W E F V) (facts : F) (initialValue : V) (w : W).

(** [detailedRun] never raises: it answers [[null, result]] when the
    evaluation returns and [[err, null]] when it raises. *)
Lemma detailedRun_returns_pair node facts initialValue w :
  detailedRun node facts initialValue w =
  match runHelp node facts {| foundMatch := false; value := initialValue |} w with
  | (Ok result, w') => (Ok (None, Some result), w')
  | (Raise err, w') => (Ok (Some err, None), w')
  end.
Proof.
  unfold detailedRun, try_catch. rewrite bind_run.
  destruct (runHelp node facts _ w) as [[result | err] w']; reflexivity.
Qed.

Lemma run_on_success node facts initialValue w result w' :
  runHelp node facts {| foundMatch := false; value := initialValue |} w
    = (Ok result, w') ->
  run node facts initialValue w = (Ok (None, Some (value result)), w').
Proof.
  intros Hrun. unfold run.
  rewrite bind_run, detailedRun_returns_pair, Hrun. reflexivity.
Qed.

(** When the evaluation raises, [run] does not answer [[err, null]]: the
    pattern [{ value }] meets [null] and [run] raises a [TypeError]. *)
Lemma run_on_failure node facts initialValue w err w' :
  runHelp node facts {| foundMatch := false; value := initialValue |} w
    = (Raise err, w') ->
  run node facts initialValue w = (Raise TypeError, w').
Proof.
  intros Hrun. unfold run.
  rewrite bind_run, detailedRun_returns_pair, Hrun. reflexivity.
Qed.

End EntryPoints.

(** ** The statements at work on the rules of the test-suite *)

Import Samples.

(** C1.  On a rule whose action throws, [detailedRun] returns the pair of
    the thrown error and [null], while [run] on the same input raises a
    [TypeError] of its own instead of returning a pair. *)
Theorem run_raises_where_detailedRun_catches :
  detailedRun boomRule 0 [] 0 = (Ok (Some (Thrown "BOOM!"%string), None), 0) /\
  run boomRule 0 [] 0 = (Raise TypeError, 0).
Proof. split; reflexivity. Qed.


(** The flag of an all-of is not the OR of its children's flags on every
    incoming state.  All-of over one non-matching rule, entered with the
    flag already set (as it is after a matching sibling in a chain): the
    result is flagged although no child matched. *)
Lemma all_flag_is_or_of_children_refuted :
  ~ @allFlagIsOrOfChildren World Err Facts Val.
Proof.
  intros claim.
  destruct (claim [miss 2] 0 (seen [1]) 0 [unseen [1]] 1) as (res & Hrun & Hflag).
  { simpl. exists 1. split; reflexivity. }
  vm_compute in Hrun. inversion Hrun; subst res.
  vm_compute in Hflag. discriminate Hflag.
Qed.


Lemma first_of_returns_first_match_witness :
  allMiss [miss 1] 0 (initial []) 0 1 /\
  runHelp (hit 2) 0 (initial []) 1 = (Ok (seen [2]), 3) /\
  foundMatch (seen [2]) = true /\
  runHelp (applyFirst [miss 1]) 0 (initial []) 0 = (Ok (initial []), 1) /\
  runHelp (applyFirst ([miss 1] ++ hit 2 :: [boomRule])) 0 (initial []) 0
    = (Ok (seen [2]), 3).
Proof.
  assert (Hpre : allMiss [miss 1] 0 (initial []) 0 1).
  { simpl. exists (unseen []), 1. repeat split. }
  assert (Hchild : runHelp (hit 2) 0 (initial []) 1 = (Ok (seen [2]), 3))
    by reflexivity.
  assert (Hhit : foundMatch (seen [2]) = true) by reflexivity.
  destruct (@first_of_returns_first_match _ _ _ _ _ _ _ _ _ Hpre)
    as [Hnone Hfirst].
  pose proof (Hfirst (hit 2) [boomRule] (seen [2]) 3 Hchild Hhit) as Hres.
  split; [exact Hpre |].
  split; [exact Hchild |].
  split; [exact Hhit |].
  split; [exact Hnone | exact Hres].
Defined.

Lemma all_of_folds_left_witness :
  folded [hit 2; miss 3; hit 4] 0 (initial []) 0
         [seen [2]; unseen [2]; seen [2; 4]] 5 /\
  runHelp (applyAll [hit 2; miss 3; hit 4]) 0 (initial []) 0
    = (Ok (seen [2; 4]), 5).
Proof.
  assert (Hfold : folded [hit 2; miss 3; hit 4] 0 (initial []) 0
                         [seen [2]; unseen [2]; seen [2; 4]] 5).
  { simpl. exists 2. split; [reflexivity |].
    exists 3. split; [reflexivity |].
    exists 5. split; reflexivity. }
  split; [exact Hfold |].
  exact (@all_of_folds_left _ _ _ _ _ _ _ _ _ _ Hfold).
Defined.

Lemma transformed_runs_child_then_transformer_witness :
  (runHelp (hit 1) 0 (initial []) 0 = (Ok (seen [1]), 2) /\
   runHelp (transformOutput (mark 9) (hit 1)) 0 (initial []) 0
     = (Ok (seen [1; 9]), 3)) /\
  (runHelp (miss 1) 0 (initial []) 0 = (Ok (unseen []), 1) /\
   runHelp (transformOutput boomTransformer (miss 1)) 0 (initial []) 0
     = (Ok (unseen []), 1)).
Proof.
  assert (Hhit : runHelp (hit 1) 0 (initial []) 0 = (Ok (seen [1]), 2))
    by reflexivity.
  assert (Hmiss : runHelp (miss 1) 0 (initial []) 0 = (Ok (unseen []), 1))
    by reflexivity.
  split; split.
  - exact Hhit.
  - exact (@transformed_runs_child_then_transformer
             _ _ _ _ (mark 9) _ _ _ _ _ _ Hhit).
  - exact Hmiss.
  - exact (@transformed_runs_child_then_transformer
             _ _ _ _ boomTransformer _ _ _ _ _ _ Hmiss).
Defined.

Lemma conditional_gates_child_witness :
  (gate false 0 (value (initial [7])) 0 = (Ok false, 1) /\
   runHelp (applyIf (gate false) boomRule) 0 (initial [7]) 0
     = (Ok (unseen [7]), 1)) /\
  (gate true 0 (value (initial [7])) 0 = (Ok true, 1) /\
   runHelp (applyIf (gate true) (hit 8)) 0 (initial [7]) 0
     = runHelp (hit 8) 0 (initial [7]) 1).
Proof.
  assert (Hshut : gate false 0 (value (initial [7])) 0 = (Ok false, 1))
    by reflexivity.
  assert (Hopen : gate true 0 (value (initial [7])) 0 = (Ok true, 1))
    by reflexivity.
  split; split.
  - exact Hshut.
  - exact (@conditional_gates_child _ _ _ _ _ boomRule _ _ _ _ _ Hshut).
  - exact Hopen.
  - exact (@conditional_gates_child _ _ _ _ _ (hit 8) _ _ _ _ _ Hopen).
Defined.

Lemma unrecognized_tag_runs_as_plain_witness :
  (forall t, type (taggedRule "plain" true 5) = Some t ->
             ~ In t recognizedTags) /\
  runHelp (taggedRule "plain" true 5) 0 (initial [4]) 0 = (Ok (seen [4; 5]), 2).
Proof.
  assert (Htag : forall t, type (taggedRule "plain" true 5) = Some t ->
                           ~ In t recognizedTags).
  { intros t Ht. injection Ht as <-. simpl. intuition discriminate. }
  split; [exact Htag |].
  exact (@unrecognized_tag_runs_as_plain _ _ _ _ _ 0 (initial [4]) 0 Htag).
Defined.

Lemma unmatched_leaves_value_unchanged_witness :
  runHelp (applyAll [miss 1; applyFirst [miss 2; miss 3]]) 0 (initial [7]) 0
    = (Ok (unseen [7]), 3) /\
  foundMatch (unseen [7]) = false /\
  value (unseen [7]) = value (initial [7]).
Proof.
  assert (Hrun : runHelp (applyAll [miss 1; applyFirst [miss 2; miss 3]])
                         0 (initial [7]) 0 = (Ok (unseen [7]), 3))
    by reflexivity.
  assert (Hmiss : foundMatch (unseen [7]) = false) by reflexivity.
  split; [exact Hrun | split; [exact Hmiss |]].
  exact (@unmatched_leaves_value_unchanged _ _ _ _ _ _ _ _ _ _ Hrun Hmiss).
Defined.

(** C4.  The all-of over one non-matching rule, entered with the flag set:
    its only child returns [foundMatch = false], yet the node returns
    [foundMatch = true], against the comment of [runHelp] ("for all or first
    rules: at least one matcher needs to have matched").  From the entry
    point the leak shows as a transformer that runs over an all-of in which
    nothing matched, against the comment of [transformOutput] ("only if the
    matcher matches"). *)
Theorem all_of_flagged_without_matching_child :
  runHelp (miss 2) 0 (seen [1]) 0 = (Ok (unseen [1]), 1) /\
  runHelp (applyAll [miss 2]) 0 (seen [1]) 0 = (Ok (seen [1]), 1) /\
  detailedRun
    (applyChain [hit 1; transformOutput (mark 9) (applyAll [miss 2])]) 0 [] 0
  = (Ok (None, Some (seen [1; 9])), 4).
Proof. repeat split. Qed.

(** The flag an all-of inherits is visible from the entry point: wrapped in
    a transformer and placed after a matching rule in a chain, an all-of
    whose only child does not match still has its output transformed. *)
Example inherited_flag_reaches_transformer :
  detailedRun
    (applyChain [hit 1; transformOutput (mark 9) (applyAll [miss 2])]) 0 [] 0
  = (Ok (None, Some (seen [1; 9])), 4).
Proof. reflexivity. Qed.

(** The nested rules of the test-suite. *)
Example all_inside_first :
  run (applyFirst [miss 1; applyAll [hit 2; miss 3; hit 4]; hit 5]) 0 [] 0
  = (Ok (None, Some [2; 4]), 6).
Proof. reflexivity. Qed.

Example first_inside_all :
  run (applyAll [hit 1; applyFirst [miss 2; hit 3; hit 4]; hit 5]) 0 [] 0
  = (Ok (None, Some [1; 3; 5]), 7).
Proof. reflexivity. Qed.

(** * Further properties *)

(** ** Matcher combinators on any list *)

Section MatcherLaws.
Context {W E F V : Type}.
Implicit Types (m : Matcher W E F V) (ms : list (Matcher W E F V)).
Implicit Types (facts : F) (v : V) (w : W).

Lemma not_run m facts v w :
  Matchers.not m facts v w =
  match m facts v w with
  | (Ok b, w1) => (Ok (negb b), w1)
  | (Raise x, w1) => (Raise x, w1)
  end.
Proof.
  unfold Matchers.not. rewrite bind_run.
  destruct (m facts v w) as [[b | x] w1]; reflexivity.
Qed.

Lemma one_cons m ms facts v w :
  Matchers.one (m :: ms) facts v w =
  match m facts v w with
  | (Ok true, w1) => (Ok true, w1)
  | (Ok false, w1) => Matchers.one ms facts v w1
  | (Raise x, w1) => (Raise x, w1)
  end.
Proof.
  unfold Matchers.one. simpl some. rewrite bind_run.
  destruct (m facts v w) as [[[|] | x] w1]; reflexivity.
Qed.

Lemma all_cons m ms facts v w :
  Matchers.all (m :: ms) facts v w =
  match m facts v w with
  | (Ok true, w1) => Matchers.all ms facts v w1
  | (Ok false, w1) => (Ok false, w1)
  | (Raise x, w1) => (Raise x, w1)
  end.
Proof.
  unfold Matchers.all. simpl every. rewrite bind_run.
  destruct (m facts v w) as [[[|] | x] w1]; reflexivity.
Qed.

(** X1.  De Morgan, effects included: negating a disjunction is the
    conjunction of the negations and negating a conjunction is the
    disjunction of the negations.  Both sides call the same matchers in the
    same order, stop at the same one, and answer or raise alike. *)
Theorem not_one_all_de_morgan ms facts v w :
  Matchers.not (Matchers.one ms) facts v w
    = Matchers.all (map Matchers.not ms) facts v w /\
  Matchers.not (Matchers.all ms) facts v w
    = Matchers.one (map Matchers.not ms) facts v w.
Proof.
  revert w. induction ms as [| m ms IH]; intros w.
  - split; reflexivity.
  - simpl map.
    rewrite (not_run (Matchers.one (m :: ms))), (not_run (Matchers.all (m :: ms))).
    rewrite !one_cons, !all_cons, !not_run.
    destruct (m facts v w) as [[[|] | x] w1]; simpl;
      try (split; reflexivity).
    + split; [reflexivity |].
      rewrite <- (not_run (Matchers.all ms)). apply IH.
    + split; [| reflexivity].
      rewrite <- (not_run (Matchers.one ms)). apply IH.
Qed.

(** X2.  Nesting is concatenation: a disjunction of two disjunctions is the
    disjunction over the concatenated lists, and likewise for
    conjunctions. *)
Theorem one_all_flatten ms ms' facts v w :
  Matchers.one [Matchers.one ms; Matchers.one ms'] facts v w
    = Matchers.one (ms ++ ms') facts v w /\
  Matchers.all [Matchers.all ms; Matchers.all ms'] facts v w
    = Matchers.all (ms ++ ms') facts v w.
Proof.
  revert w. induction ms as [| m ms IH]; intros w.
  - simpl app. split.
    + rewrite one_cons. change (Matchers.one [] facts v w) with (@ret W E _ false w).
      unfold ret. rewrite one_cons.
      destruct (Matchers.one ms' facts v w) as [[[|] | x] w1]; reflexivity.
    + rewrite all_cons. change (Matchers.all [] facts v w) with (@ret W E _ true w).
      unfold ret. rewrite all_cons.
      destruct (Matchers.all ms' facts v w) as [[[|] | x] w1]; reflexivity.
  - simpl app. split.
    + rewrite (one_cons (Matchers.one (m :: ms))), !one_cons.
      destruct (m facts v w) as [[[|] | x] w1]; try reflexivity.
      rewrite <- (proj1 (IH w1)), one_cons. reflexivity.
    + rewrite (all_cons (Matchers.all (m :: ms))), !all_cons.
      destruct (m facts v w) as [[[|] | x] w1]; try reflexivity.
      rewrite <- (proj2 (IH w1)), all_cons. reflexivity.
Qed.

Lemma one_after_falses pre ms facts v w w1 :
  allAnswer false pre facts v w w1 ->
  Matchers.one (pre ++ ms) facts v w = Matchers.one ms facts v w1.
Proof.
  revert w. induction pre as [| m pre IH]; intros w Hpre; simpl in Hpre.
  - subst w1. reflexivity.
  - destruct Hpre as (w0 & Hm & Hrest).
    simpl app. rewrite one_cons, Hm. apply IH. exact Hrest.
Qed.

Lemma all_after_trues pre ms facts v w w1 :
  allAnswer true pre facts v w w1 ->
  Matchers.all (pre ++ ms) facts v w = Matchers.all ms facts v w1.
Proof.
  revert w. induction pre as [| m pre IH]; intros w Hpre; simpl in Hpre.
  - subst w1. reflexivity.
  - destruct Hpre as (w0 & Hm & Hrest).
    simpl app. rewrite all_cons, Hm. apply IH. exact Hrest.
Qed.

(** X3.  [one] calls its matchers in order and stops at the first that
    answers [true]: after matchers that all answer [false], the list by
    itself answers [false]; followed by a matcher that answers [true], the
    answer is [true] in the world that matcher left, whatever matchers come
    after it. *)
Theorem one_stops_at_first_true pre facts v w w1
  (Hpre : allAnswer false pre facts v w w1) :
  Matchers.one pre facts v w = (Ok false, w1) /\
  forall m post w2,
    m facts v w1 = (Ok true, w2) ->
    Matchers.one (pre ++ m :: post) facts v w = (Ok true, w2).
Proof.
  split.
  - rewrite <- (app_nil_r pre), one_after_falses with (1 := Hpre). reflexivity.
  - intros m post w2 Hm.
    rewrite one_after_falses with (1 := Hpre). rewrite one_cons, Hm. reflexivity.
Qed.

(** X4.  [all] calls its matchers in order and stops at the first that
    answers [false]: after matchers that all answer [true], the list by
    itself answers [true]; followed by a matcher that answers [false], the
    answer is [false] in the world that matcher left, whatever matchers
    come after it. *)
Theorem all_stops_at_first_false pre facts v w w1
  (Hpre : allAnswer true pre facts v w w1) :
  Matchers.all pre facts v w = (Ok true, w1) /\
  forall m post w2,
    m facts v w1 = (Ok false, w2) ->
    Matchers.all (pre ++ m :: post) facts v w = (Ok false, w2).
Proof.
  split.
  - rewrite <- (app_nil_r pre), all_after_trues with (1 := Hpre). reflexivity.
  - intros m post w2 Hm.
    rewrite all_after_trues with (1 := Hpre). rewrite all_cons, Hm. reflexivity.
Qed.

End MatcherLaws.

(** ** The builders, one evaluation step each *)

Section BuilderSteps.
Context {W E F V : Type}.
Implicit Types (node child : Rule W E F V) (facts : F) (state : RuleResult V).
Implicit Types (w : W).

Lemma runHelp_injectFacts (mp : Mapper W E F) child facts state w :
  runHelp (injectFacts mp child) facts state w =
  match mp facts w with
  | (Ok facts', w1) => runHelp child facts' state w1
  | (Raise x, w1) => (Raise x, w1)
  end.
Proof. rewrite runHelp_unfold. reflexivity. Qed.

Lemma runHelp_transformOutput (fn : Transformer W E V) child facts state w :
  runHelp (transformOutput fn child) facts state w =
  match runHelp child facts state w with
  | (Ok res, w1) =>
      if foundMatch res
      then match fn (value res) w1 with
           | (Ok v, w2) => (Ok {| foundMatch := true; value := v |}, w2)
           | (Raise x, w2) => (Raise x, w2)
           end
      else (Ok res, w1)
  | (Raise x, w1) => (Raise x, w1)
  end.
Proof.
  rewrite runHelp_unfold. simpl. rewrite bind_run.
  destruct (runHelp child facts state w) as [[res | x] w1]; [| reflexivity].
  rewrite bind_run. destruct res as [[|] v]; simpl; [| reflexivity].
  destruct (fn v w1) as [[v' | x] w2]; reflexivity.
Qed.

Lemma runHelp_applyIf (gate : Matcher W E F V) child facts state w :
  runHelp (applyIf gate child) facts state w =
  match gate facts (value state) w with
  | (Ok true, w1) => runHelp child facts state w1
  | (Ok false, w1) => (Ok {| foundMatch := false; value := value state |}, w1)
  | (Raise x, w1) => (Raise x, w1)
  end.
Proof.
  rewrite runHelp_unfold. simpl. rewrite bind_run.
  destruct (gate facts (value state) w) as [[[|] | x] w1]; reflexivity.
Qed.

Lemma runHelp_plainRule (m : Matcher W E F V) (a : Action W E F V)
  facts state w :
  runHelp (plainRule m a) facts state w =
  match m facts (value state) w with
  | (Ok true, w1) =>
      match a facts (value state) w1 with
      | (Ok v, w2) => (Ok {| foundMatch := true; value := v |}, w2)
      | (Raise x, w2) => (Raise x, w2)
      end
  | (Ok false, w1) => (Ok {| foundMatch := false; value := value state |}, w1)
  | (Raise x, w1) => (Raise x, w1)
  end.
Proof.
  rewrite runHelp_unfold. simpl. rewrite bind_run.
  destruct (m facts (value state) w) as [[[|] | x] w1]; reflexivity.
Qed.

End BuilderSteps.

(** ** How the builders compose *)

Section BuilderLaws.
Context {W E F V : Type}.
Implicit Types (node child : Rule W E F V) (facts : F) (state : RuleResult V).
Implicit Types (rs pre mid post : list (Rule W E F V)) (w : W).

(** X5.  Gates compose: a rule behind the gate [always] is the rule itself,
    and a rule behind two gates is the rule behind the conjunction of the
    two, the outer gate first. *)
Theorem applyIf_gates_compose (g1 g2 : Matcher W E F V) child :
  sameRule (applyIf Matchers.always child) child /\
  sameRule (applyIf g1 (applyIf g2 child))
           (applyIf (Matchers.all [g1; g2]) child).
Proof.
  split; intros facts state w.
  - rewrite runHelp_applyIf. reflexivity.
  - rewrite !runHelp_applyIf, !all_cons.
    destruct (g1 facts (value state) w) as [[[|] | x] w1]; try reflexivity.
    rewrite runHelp_applyIf, all_cons.
    destruct (g2 facts (value state) w1) as [[[|] | x] w2]; reflexivity.
Qed.

(** X6.  A gate in front of a plain rule is one more condition of its
    matcher: the gated rule is the plain rule whose matcher is the
    conjunction of the gate and the rule's own matcher. *)
Theorem applyIf_plain_is_conjunction (g m : Matcher W E F V)
  (a : Action W E F V) :
  sameRule (applyIf g (plainRule m a)) (plainRule (Matchers.all [g; m]) a).
Proof.
  intros facts state w.
  rewrite runHelp_applyIf, runHelp_plainRule, all_cons.
  destruct (g facts (value state) w) as [[[|] | x] w1]; try reflexivity.
  rewrite runHelp_plainRule, all_cons.
  destruct (m facts (value state) w1) as [[[|] | x] w2]; reflexivity.
Qed.

(** X7.  Injected facts compose from the outside in: the identity mapper
    changes nothing, and two nested injections are one injection of the
    outer mapper followed by the inner one. *)
Theorem injectFacts_mappers_compose (mp1 mp2 : Mapper W E F) child :
  sameRule (injectFacts (fun facts => ret facts) child) child /\
  sameRule (injectFacts mp1 (injectFacts mp2 child))
           (injectFacts (fun facts => facts' <- mp1 facts ;; mp2 facts') child).
Proof.
  split; intros facts state w.
  - rewrite runHelp_injectFacts. reflexivity.
  - rewrite !runHelp_injectFacts, bind_run.
    destruct (mp1 facts w) as [[facts' | x] w1]; [| reflexivity].
    rewrite runHelp_injectFacts. reflexivity.
Qed.

(** X8.  Output transformers compose from the inside out: the identity
    transformer changes nothing, and two nested transformers are one
    transformer, the inner function followed by the outer one. *)
Theorem transformOutput_transformers_compose (fn1 fn2 : Transformer W E V)
  child :
  sameRule (transformOutput (fun v => ret v) child) child /\
  sameRule (transformOutput fn2 (transformOutput fn1 child))
           (transformOutput (fun v => v' <- fn1 v ;; fn2 v') child).
Proof.
  split; intros facts state w.
  - rewrite runHelp_transformOutput.
    destruct (runHelp child facts state w) as [[[[|] v] | x] w1]; reflexivity.
  - rewrite !runHelp_transformOutput.
    destruct (runHelp child facts state w) as [[[[|] v] | x] w1];
      try reflexivity.
    simpl. rewrite bind_run.
    destruct (fn1 v w1) as [[v' | x] w2]; reflexivity.
Qed.

End BuilderLaws.

(** ** How the list nodes compose *)

Section ListLaws.
Context {W E F V : Type}.
Implicit Types (node child : Rule W E F V) (facts : F) (state : RuleResult V).
Implicit Types (rs pre mid post : list (Rule W E F V)) (w : W).

Lemma runAll_step child rs facts state w :
  runAllMatchingRules (child :: rs) facts state w =
  match runHelp child facts state w with
  | (Ok n, w1) =>
      runAllMatchingRules rs facts
        {| foundMatch := foundMatch state || foundMatch n; value := value n |} w1
  | (Raise x, w1) => (Raise x, w1)
  end.
Proof.
  rewrite runAll_cons, !bind_run.
  destruct (runHelp child facts state w) as [[n | x] w1]; reflexivity.
Qed.

Lemma runFirst_step child rs facts state w :
  runFirstMatchingRule (child :: rs) facts state w =
  match runHelp child facts state w with
  | (Ok n, w1) =>
      if foundMatch n then (Ok n, w1)
      else runFirstMatchingRule rs facts state w1
  | (Raise x, w1) => (Raise x, w1)
  end.
Proof.
  rewrite runFirst_cons, bind_run.
  destruct (runHelp child facts state w) as [[n | x] w1]; [| reflexivity].
  rewrite result_eta. destruct (foundMatch n); reflexivity.
Qed.

Lemma runChain_step child rs facts state w :
  runChainOfRules (child :: rs) facts state w =
  match runHelp child facts state w with
  | (Ok n, w1) =>
      if foundMatch n then runChainOfRules rs facts n w1
      else (Ok state, w1)
  | (Raise x, w1) => (Raise x, w1)
  end.
Proof.
  rewrite runChain_cons, bind_run.
  destruct (runHelp child facts state w) as [[n | x] w1]; [| reflexivity].
  rewrite result_eta. destruct (foundMatch n); reflexivity.
Qed.

Lemma runAll_app pre post facts state w :
  runAllMatchingRules (pre ++ post) facts state w =
  match runAllMatchingRules pre facts state w with
  | (Ok state1, w1) => runAllMatchingRules post facts state1 w1
  | (Raise x, w1) => (Raise x, w1)
  end.
Proof.
  revert state w. induction pre as [| c pre IH]; intros state w.
  - reflexivity.
  - simpl app. rewrite !runAll_step.
    destruct (runHelp c facts state w) as [[n | x] w1]; [| reflexivity].
    apply IH.
Qed.

Lemma runAll_keeps_flag rs facts state w res w' :
  runAllMatchingRules rs facts state w = (Ok res, w') ->
  foundMatch state = true ->
  foundMatch res = true.
Proof.
  revert state w. induction rs as [| c rs IH]; intros state w Hrun Hflag.
  - rewrite runAll_nil in Hrun. ret_inv Hrun. exact Hflag.
  - rewrite runAll_step in Hrun.
    destruct (runHelp c facts state w) as [[n | x] w1]; [| discriminate Hrun].
    apply (IH _ _ Hrun). simpl. rewrite Hflag. reflexivity.
Qed.

(** X9.  A list node never clears the flag: when an all-of, a first-of or
    a chain-of is entered with [foundMatch = true] and returns, its result
    has [foundMatch = true], whatever its children did. *)
Theorem list_nodes_keep_flag rs facts state w res w'
  (Hflag : foundMatch state = true) :
  (runHelp (applyAll rs) facts state w = (Ok res, w') ->
   foundMatch res = true) /\
  (runHelp (applyFirst rs) facts state w = (Ok res, w') ->
   foundMatch res = true) /\
  (runHelp (applyChain rs) facts state w = (Ok res, w') ->
   foundMatch res = true).
Proof.
  repeat split; intros Hrun.
  - rewrite runHelp_applyAll in Hrun. exact (runAll_keeps_flag _ _ _ _ Hrun Hflag).
  - rewrite runHelp_applyFirst in Hrun.
    destruct (foundMatch res) eqn:Hres; [reflexivity |].
    rewrite (runFirst_unmatched _ _ _ _ Hrun Hres) in Hres. congruence.
  - rewrite runHelp_applyChain in Hrun.
    destruct (foundMatch res) eqn:Hres; [reflexivity |].
    rewrite (runChain_unmatched _ _ _ _ Hrun Hres) in Hres. congruence.
Qed.

Lemma unmatched_result_is_state child facts state w n w1 :
  runHelp child facts state w = (Ok n, w1) ->
  foundMatch state = false ->
  foundMatch n = false ->
  n = state.
Proof.
  intros Hrun Hstate Hn.
  pose proof (runHelp_keepsValue child _ _ _ Hrun Hn) as Hval.
  destruct n, state; simpl in *; congruence.
Qed.

(** X10.  A list of one rule, entered with [foundMatch = false] (as from an
    entry point), is that rule: all-of, first-of and chain-of over [[child]]
    all evaluate as [child] does. *)
Theorem singleton_list_node_is_child child facts state w
  (Hflag : foundMatch state = false) :
  runHelp (applyAll [child]) facts state w = runHelp child facts state w /\
  runHelp (applyFirst [child]) facts state w = runHelp child facts state w /\
  runHelp (applyChain [child]) facts state w = runHelp child facts state w.
Proof.
  rewrite runHelp_applyAll, runHelp_applyFirst, runHelp_applyChain.
  rewrite runAll_step, runFirst_step, runChain_step.
  destruct (runHelp child facts state w) as [[n | x] w1] eqn:Hrun;
    [| repeat split].
  rewrite runAll_nil, runFirst_nil, runChain_nil, Hflag. unfold ret. simpl.
  rewrite result_eta.
  destruct (foundMatch n) eqn:Hn; [repeat split |].
  rewrite (unmatched_result_is_state _ _ _ _ Hrun Hflag Hn). repeat split.
Qed.

(** X11.  All-of nodes flatten: an all-of among the children of an all-of
    can be replaced by its own children, in place. *)
Theorem applyAll_flattens pre mid post :
  sameRule (applyAll (pre ++ applyAll mid :: post))
           (applyAll (pre ++ mid ++ post)).
Proof.
  intros facts state w. rewrite !runHelp_applyAll, !runAll_app.
  destruct (runAllMatchingRules pre facts state w) as [[state1 | x] w1];
    [| reflexivity].
  rewrite runAll_step, runHelp_applyAll, runAll_app.
  destruct (runAllMatchingRules mid facts state1 w1) as [[n | x] w2] eqn:Hmid;
    [| reflexivity].
  assert (Hn : {| foundMatch := foundMatch state1 || foundMatch n;
                  value := value n |} = n).
  { destruct (foundMatch state1) eqn:Hflag; simpl.
    - rewrite <- (runAll_keeps_flag _ _ _ _ Hmid Hflag). apply result_eta.
    - apply result_eta. }
  rewrite Hn. reflexivity.
Qed.

Lemma runFirst_app pre post facts state w :
  foundMatch state = false ->
  runFirstMatchingRule (pre ++ post) facts state w =
  match runFirstMatchingRule pre facts state w with
  | (Ok res, w1) =>
      if foundMatch res then (Ok res, w1)
      else runFirstMatchingRule post facts state w1
  | (Raise x, w1) => (Raise x, w1)
  end.
Proof.
  intros Hflag. revert w. induction pre as [| c pre IH]; intros w.
  - simpl app. rewrite runFirst_nil. unfold ret. rewrite Hflag. reflexivity.
  - simpl app. rewrite !runFirst_step.
    destruct (runHelp c facts state w) as [[n | x] w1]; [| reflexivity].
    destruct (foundMatch n) eqn:Hn; [rewrite Hn; reflexivity |].
    apply IH.
Qed.

(** X12.  First-of nodes flatten when entered with [foundMatch = false]: a
    first-of among the children of a first-of can be replaced by its own
    children, in place. *)
Theorem applyFirst_flattens pre mid post facts state w
  (Hflag : foundMatch state = false) :
  runHelp (applyFirst (pre ++ applyFirst mid :: post)) facts state w =
  runHelp (applyFirst (pre ++ mid ++ post)) facts state w.
Proof.
  rewrite !runHelp_applyFirst.
  rewrite runFirst_app by exact Hflag.
  rewrite runFirst_app by exact Hflag.
  destruct (runFirstMatchingRule pre facts state w) as [[res | x] w1];
    [| reflexivity].
  destruct (foundMatch res); [reflexivity |].
  rewrite runFirst_step, runHelp_applyFirst.
  rewrite runFirst_app by exact Hflag. reflexivity.
Qed.

(** X13.  An all-of steps over a child that does not match: if, after the
    children [pre], the next child returns with [foundMatch = false], the
    fold goes on from the state it had before that child. *)
Theorem applyAll_skips_unmatched_child pre child post facts state w
  state1 w1 res w2
  (Hpre : runHelp (applyAll pre) facts state w = (Ok state1, w1))
  (Hchild : runHelp child facts state1 w1 = (Ok res, w2))
  (Hmiss : foundMatch res = false) :
  runHelp (applyAll (pre ++ child :: post)) facts state w =
  runHelp (applyAll post) facts state1 w2.
Proof.
  rewrite runHelp_applyAll in Hpre.
  rewrite !runHelp_applyAll, runAll_app, Hpre, runAll_step, Hchild, Hmiss.
  rewrite orb_false_r, (runHelp_keepsValue child _ _ _ Hchild Hmiss).
  rewrite result_eta. reflexivity.
Qed.

(** X14.  The evaluator does not catch: when the children before it have
    been dealt with and the next child raises, an all-of, a first-of and a
    chain-of raise the same exception in the world the child left, whatever
    children follow. *)
Theorem list_nodes_propagate_failure pre child post facts state w x w2 :
  (forall state1 w1,
      runHelp (applyAll pre) facts state w = (Ok state1, w1) ->
      runHelp child facts state1 w1 = (Raise x, w2) ->
      runHelp (applyAll (pre ++ child :: post)) facts state w = (Raise x, w2)) /\
  (forall w1,
      allMiss pre facts state w w1 ->
      runHelp child facts state w1 = (Raise x, w2) ->
      runHelp (applyFirst (pre ++ child :: post)) facts state w = (Raise x, w2)) /\
  (forall state1 w1,
      allHit pre facts state w state1 w1 ->
      runHelp child facts state1 w1 = (Raise x, w2) ->
      runHelp (applyChain (pre ++ child :: post)) facts state w = (Raise x, w2)).
Proof.
  repeat split.
  - intros state1 w1 Hpre Hchild. rewrite runHelp_applyAll in Hpre.
    rewrite runHelp_applyAll, runAll_app, Hpre, runAll_step, Hchild.
    reflexivity.
  - intros w1 Hpre Hchild.
    rewrite runHelp_applyFirst, runFirst_after_misses with (1 := Hpre).
    rewrite runFirst_step, Hchild. reflexivity.
  - intros state1 w1 Hpre Hchild.
    rewrite runHelp_applyChain, runChain_after_hits with (1 := Hpre).
    rewrite runChain_step, Hchild. reflexivity.
Qed.

End ListLaws.

(** ** Injected facts and list nodes *)

Section InjectedLists.
Context {W E F V : Type}.
Implicit Types (node child : Rule W E F V) (facts : F) (state : RuleResult V).
Implicit Types (rs : list (Rule W E F V)) (w : W).
Variables (mp : Mapper W E F) (g : F -> F).
Hypothesis Hpure : pureMapper mp g.

Lemma runHelp_injectFacts_pure child facts state w :
  runHelp (injectFacts mp child) facts state w = runHelp child (g facts) state w.
Proof. rewrite runHelp_injectFacts, Hpure. reflexivity. Qed.

Lemma runAll_map_injectFacts rs facts state w :
  runAllMatchingRules (map (injectFacts mp) rs) facts state w =
  runAllMatchingRules rs (g facts) state w.
Proof.
  revert state w. induction rs as [| c rs IH]; intros state w; [reflexivity |].
  simpl map. rewrite !runAll_step, runHelp_injectFacts_pure.
  destruct (runHelp c (g facts) state w) as [[n | x] w1]; [apply IH | reflexivity].
Qed.

Lemma runFirst_map_injectFacts rs facts state w :
  runFirstMatchingRule (map (injectFacts mp) rs) facts state w =
  runFirstMatchingRule rs (g facts) state w.
Proof.
  revert w. induction rs as [| c rs IH]; intros w; [reflexivity |].
  simpl map. rewrite !runFirst_step, runHelp_injectFacts_pure.
  destruct (runHelp c (g facts) state w) as [[n | x] w1]; [| reflexivity].
  destruct (foundMatch n); [reflexivity | apply IH].
Qed.

Lemma runChain_map_injectFacts rs facts state w :
  runChainOfRules (map (injectFacts mp) rs) facts state w =
  runChainOfRules rs (g facts) state w.
Proof.
  revert state w. induction rs as [| c rs IH]; intros state w; [reflexivity |].
  simpl map. rewrite !runChain_step, runHelp_injectFacts_pure.
  destruct (runHelp c (g facts) state w) as [[n | x] w1]; [| reflexivity].
  destruct (foundMatch n); [apply IH | reflexivity].
Qed.

(** X15.  Facts injected by a mapper that only computes reach every child
    of a list node and nothing else: injecting into an all-of, a first-of
    or a chain-of is injecting into each of its children. *)
Theorem injectFacts_distributes_over_lists rs :
  sameRule (injectFacts mp (applyAll rs)) (applyAll (map (injectFacts mp) rs)) /\
  sameRule (injectFacts mp (applyFirst rs))
           (applyFirst (map (injectFacts mp) rs)) /\
  sameRule (injectFacts mp (applyChain rs))
           (applyChain (map (injectFacts mp) rs)).
Proof.
  repeat split; intros facts state w; rewrite runHelp_injectFacts_pure.
  - rewrite !runHelp_applyAll. symmetry. apply runAll_map_injectFacts.
  - rewrite !runHelp_applyFirst. symmetry. apply runFirst_map_injectFacts.
  - rewrite !runHelp_applyChain. symmetry. apply runChain_map_injectFacts.
Qed.

End InjectedLists.

(** ** Entry points, both builds *)

Section EntryPointLaws.
Context {W E F V : Type}.
Implicit Types (node : Rule W E F V) (facts : F) (initialValue : V) (w : W).

(** X17.  [detailedRun] never raises, whatever the rule: it answers
    [[null, result]] exactly when the evaluation returns [result], and
    [[err, null]] exactly when the evaluation raises [err]. *)
Theorem detailedRun_never_raises node facts initialValue w :
  exists p w',
    detailedRun node facts initialValue w = (Ok p, w') /\
    ((exists res,
         p = (None, Some res) /\
         runHelp node facts {| foundMatch := false; value := initialValue |} w
           = (Ok res, w')) \/
     (exists err,
         p = (Some err, None) /\
         runHelp node facts {| foundMatch := false; value := initialValue |} w
           = (Raise err, w'))).
Proof.
  rewrite detailedRun_returns_pair.
  destruct (runHelp node facts _ w) as [[res | err] w'].
  - exists (None, Some res), w'. split; [reflexivity |]. left. eauto.
  - exists (Some err, None), w'. split; [reflexivity |]. right. eauto.
Qed.

Lemma detailedRun_success_inv node facts initialValue w res w' :
  detailedRun node facts initialValue w = (Ok (None, Some res), w') ->
  runHelp node facts {| foundMatch := false; value := initialValue |} w
    = (Ok res, w').
Proof.
  rewrite detailedRun_returns_pair.
  destruct (runHelp node facts _ w) as [[res0 | err] w0]; intros H;
    inversion H; reflexivity.
Qed.

(** X18.  When nothing matched, the initial value comes back: a result of
    [detailedRun] with [foundMatch = false] is [{ foundMatch: false, value:
    initialValue }], and [run] then answers [[null, initialValue]]. *)
Theorem unmatched_run_returns_initial_value node facts initialValue w res w'
  (Hrun : detailedRun node facts initialValue w = (Ok (None, Some res), w'))
  (Hmiss : foundMatch res = false) :
  res = {| foundMatch := false; value := initialValue |} /\
  run node facts initialValue w = (Ok (None, Some initialValue), w').
Proof.
  apply detailedRun_success_inv in Hrun.
  pose proof (runHelp_keepsValue node _ _ _ Hrun Hmiss) as Hval.
  simpl in Hval. split.
  - destruct res; simpl in *; congruence.
  - rewrite (run_on_success _ _ _ _ Hrun), Hval. reflexivity.
Qed.

(** X19.  The two builds agree where they can: [run] of [index.js] returns
    [x] exactly when [run] of [index.ts] returns [[null, x]], and it raises
    [err] exactly when [detailedRun] of [index.ts] returns [[err, null]]. *)
Theorem indexjs_run_agrees_with_ts node facts initialValue w w' :
  (forall x,
      IndexJs.run node facts initialValue w = (Ok x, w') <->
      run node facts initialValue w = (Ok (None, Some x), w')) /\
  (forall err,
      IndexJs.run node facts initialValue w = (Raise err, w') <->
      detailedRun node facts initialValue w = (Ok (Some err, None), w')).
Proof.
  unfold IndexJs.run, run.
  split; intros x; rewrite !bind_run, ?detailedRun_returns_pair;
    destruct (runHelp node facts _ w) as [[res | err] w0]; simpl; unfold ret;
    split; intros H; inversion H; reflexivity.
Qed.

(** X20.  [detailedRun] of [index.js] answers [null] for the value exactly
    when nothing matched: its answer is either the matched result of the
    evaluation, whose value is what [run] returns, or [{ value: null,
    foundMatch: false }], and [run] then returns the initial value. *)
Theorem indexjs_detailedRun_null_iff_unmatched node facts initialValue w out w'
  (Hrun : IndexJs.detailedRun node facts initialValue w = (Ok out, w')) :
  exists x,
    IndexJs.run node facts initialValue w = (Ok x, w') /\
    ((foundMatch out = true /\ value out = Some x) \/
     (out = {| foundMatch := false; value := None |} /\ x = initialValue)).
Proof.
  unfold IndexJs.detailedRun in Hrun. unfold IndexJs.run.
  run_inv Hrun. ret_inv Hrun. exists (value r).
  rewrite bind_run, Hrun0. split; [reflexivity |].
  destruct (foundMatch r) eqn:Hm.
  - left. split; reflexivity.
  - right. split; [reflexivity |].
    exact (runHelp_keepsValue node _ _ _ Hrun0 Hm).
Qed.

End EntryPointLaws.

(** ** Currying, any arity *)

Section CurryingLaws.
Context {A R : Type}.
Variables (undefined : A) (fn : list A -> R) (arity : nat).
Implicit Types (args g : list A) (groups : list (list A)).

Lemma resolver_nonempty args g :
  g <> [] ->
  resolver undefined fn arity args g =
  if arity <=? List.length (args ++ g)
  then Returned (fn (args ++ g)) else Resolver (args ++ g).
Proof.
  intros Hg. unfold resolver.
  destruct g as [| a g]; [contradiction |].
  simpl List.length at 1. simpl Nat.eqb. rewrite andb_false_r. reflexivity.
Qed.

(** X21.  Grouping does not matter: however the arguments are split into
    non-empty groups, once the groups before the last hold fewer than
    [arity] arguments and all of them hold at least [arity], the curried
    function calls [fn] once, on all the arguments in order. *)
Theorem feed_ignores_grouping groups args g
  (Hgroups : forall h, In h groups -> h <> [])
  (Hg : g <> [])
  (Hshort : List.length (args ++ List.concat groups) < arity)
  (Hfull : arity <= List.length (args ++ List.concat groups ++ g)) :
  feed undefined fn arity args (groups ++ [g])
    = Returned (fn (args ++ List.concat groups ++ g)).
Proof.
  revert args Hshort Hfull.
  induction groups as [| h groups IH]; intros args Hshort Hfull.
  - simpl in *. rewrite resolver_nonempty by exact Hg.
    apply Nat.leb_le in Hfull. rewrite Hfull. reflexivity.
  - simpl app. simpl feed. simpl List.concat in Hshort, Hfull |- *.
    rewrite resolver_nonempty by (apply Hgroups; left; reflexivity).
    assert (Hlt : (arity <=? List.length (args ++ h)) = false).
    { apply Nat.leb_gt. rewrite !length_app in *. lia. }
    rewrite Hlt, IH.
    + rewrite <- !app_assoc. reflexivity.
    + intros k Hk. apply Hgroups. right. exact Hk.
    + rewrite <- app_assoc. exact Hshort.
    + rewrite <- !app_assoc in Hfull. rewrite <- !app_assoc. exact Hfull.
Qed.

(** X22.  The curried function stops returning functions: every call adds
    at least one argument (a call without arguments adds [undefined]), so
    from [args] collected so far, as many calls as there are arguments
    missing end in a call of [fn], and [fn] is never called on fewer than
    [arity] arguments. *)
Theorem feed_ends_in_a_call groups args
  (Hsome : groups <> [])
  (Henough : arity <= List.length args + List.length groups) :
  exists allArgs,
    feed undefined fn arity args groups = Returned (fn allArgs) /\
    arity <= List.length allArgs.
Proof.
  revert args Henough.
  induction groups as [| g groups IH]; intros args Henough; [contradiction |].
  simpl feed. unfold resolver.
  set (newArgs := if negb (arity =? 0) && (List.length g =? 0)
                  then [undefined] else g).
  destruct (arity <=? List.length (args ++ newArgs)) eqn:Hleb.
  - exists (args ++ newArgs). split; [reflexivity |].
    apply Nat.leb_le. exact Hleb.
  - apply Nat.leb_gt in Hleb. rewrite length_app in Hleb.
    assert (Hnew : 1 <= List.length newArgs).
    { subst newArgs. destruct (Nat.eqb_spec arity 0) as [H0 | _]; [lia |].
      destruct g as [| a g]; simpl; lia. }
    simpl List.length in Henough.
    apply IH.
    + intros ->. simpl in Henough. lia.
    + rewrite length_app. lia.
Qed.

End CurryingLaws.

(** ** The further statements at work on the rules of the test-suite *)

Lemma one_stops_at_first_true_witness :
  allAnswer false [gate false] 0 [] 0 1 /\
  gate true 0 [] 1 = (Ok true, 2) /\
  Matchers.one [gate false] 0 [] 0 = (Ok false, 1) /\
  Matchers.one ([gate false] ++ gate true :: [gate false]) 0 [] 0 = (Ok true, 2).
Proof.
  assert (Hpre : allAnswer false [gate false] 0 [] 0 1).
  { simpl. exists 1. split; reflexivity. }
  assert (Hm : gate true 0 [] 1 = (Ok true, 2)) by reflexivity.
  destruct (@one_stops_at_first_true _ _ _ _ _ _ _ _ _ Hpre) as [Hnone Hstop].
  split; [exact Hpre |]. split; [exact Hm |]. split; [exact Hnone |].
  exact (Hstop (gate true) [gate false] 2 Hm).
Defined.

Lemma all_stops_at_first_false_witness :
  allAnswer true [gate true] 0 [] 0 1 /\
  gate false 0 [] 1 = (Ok false, 2) /\
  Matchers.all [gate true] 0 [] 0 = (Ok true, 1) /\
  Matchers.all ([gate true] ++ gate false :: [gate true]) 0 [] 0 = (Ok false, 2).
Proof.
  assert (Hpre : allAnswer true [gate true] 0 [] 0 1).
  { simpl. exists 1. split; reflexivity. }
  assert (Hm : gate false 0 [] 1 = (Ok false, 2)) by reflexivity.
  destruct (@all_stops_at_first_false _ _ _ _ _ _ _ _ _ Hpre) as [Hevery Hstop].
  split; [exact Hpre |]. split; [exact Hm |]. split; [exact Hevery |].
  exact (Hstop (gate false) [gate true] 2 Hm).
Defined.

Lemma list_nodes_keep_flag_witness :
  foundMatch (seen [1]) = true /\
  runHelp (applyAll [miss 2]) 0 (seen [1]) 0 = (Ok (seen [1]), 1) /\
  runHelp (applyFirst [miss 2]) 0 (seen [1]) 0 = (Ok (seen [1]), 1) /\
  runHelp (applyChain [miss 2]) 0 (seen [1]) 0 = (Ok (seen [1]), 1) /\
  foundMatch (seen [1]) = true.
Proof.
  assert (Hflag : foundMatch (seen [1]) = true) by reflexivity.
  assert (Hall : runHelp (applyAll [miss 2]) 0 (seen [1]) 0
                 = (Ok (seen [1]), 1)) by reflexivity.
  assert (Hfirst : runHelp (applyFirst [miss 2]) 0 (seen [1]) 0
                   = (Ok (seen [1]), 1)) by reflexivity.
  assert (Hchain : runHelp (applyChain [miss 2]) 0 (seen [1]) 0
                   = (Ok (seen [1]), 1)) by reflexivity.
  destruct (@list_nodes_keep_flag _ _ _ _ [miss 2] 0 (seen [1]) 0 (seen [1]) 1
              Hflag) as (Ha & Hf & Hc).
  split; [exact Hflag |]. split; [exact Hall |]. split; [exact Hfirst |].
  split; [exact Hchain |]. exact (Ha Hall).
Defined.

Lemma singleton_list_node_is_child_witness :
  foundMatch (initial [7]) = false /\
  runHelp (applyAll [hit 1]) 0 (initial [7]) 0 = runHelp (hit 1) 0 (initial [7]) 0 /\
  runHelp (applyFirst [miss 1]) 0 (initial [7]) 0
    = runHelp (miss 1) 0 (initial [7]) 0 /\
  runHelp (applyChain [boomRule]) 0 (initial [7]) 0
    = runHelp boomRule 0 (initial [7]) 0.
Proof.
  assert (Hflag : foundMatch (initial [7]) = false) by reflexivity.
  split; [exact Hflag |].
  split; [exact (proj1 (@singleton_list_node_is_child
                          _ _ _ _ (hit 1) 0 _ 0 Hflag)) |].
  split; [exact (proj1 (proj2 (@singleton_list_node_is_child
                                 _ _ _ _ (miss 1) 0 _ 0 Hflag))) |].
  exact (proj2 (proj2 (@singleton_list_node_is_child
                         _ _ _ _ boomRule 0 _ 0 Hflag))).
Defined.

Lemma applyFirst_flattens_witness :
  foundMatch (initial []) = false /\
  runHelp (applyFirst ([miss 1] ++ applyFirst [miss 2; hit 3] :: [hit 4]))
          0 (initial []) 0
  = runHelp (applyFirst ([miss 1] ++ [miss 2; hit 3] ++ [hit 4])) 0 (initial []) 0.
Proof.
  assert (Hflag : foundMatch (initial []) = false) by reflexivity.
  split; [exact Hflag |].
  exact (@applyFirst_flattens _ _ _ _ [miss 1] [miss 2; hit 3] [hit 4]
           0 (initial []) 0 Hflag).
Defined.

Lemma applyAll_skips_unmatched_child_witness :
  runHelp (applyAll [hit 1]) 0 (initial []) 0 = (Ok (seen [1]), 2) /\
  runHelp (miss 2) 0 (seen [1]) 2 = (Ok (unseen [1]), 3) /\
  foundMatch (unseen [1]) = false /\
  runHelp (applyAll ([hit 1] ++ miss 2 :: [hit 3])) 0 (initial []) 0
    = runHelp (applyAll [hit 3]) 0 (seen [1]) 3.
Proof.
  assert (Hpre : runHelp (applyAll [hit 1]) 0 (initial []) 0
                 = (Ok (seen [1]), 2)) by reflexivity.
  assert (Hchild : runHelp (miss 2) 0 (seen [1]) 2 = (Ok (unseen [1]), 3))
    by reflexivity.
  assert (Hmiss : foundMatch (unseen [1]) = false) by reflexivity.
  split; [exact Hpre |]. split; [exact Hchild |]. split; [exact Hmiss |].
  exact (@applyAll_skips_unmatched_child _ _ _ _ [hit 1] (miss 2) [hit 3]
           0 (initial []) 0 (seen [1]) 2 (unseen [1]) 3 Hpre Hchild Hmiss).
Defined.

Lemma list_nodes_propagate_failure_witness :
  runHelp (applyAll [hit 1]) 0 (initial []) 0 = (Ok (seen [1]), 2) /\
  runHelp boomRule 0 (seen [1]) 2 = (Raise (Thrown "BOOM!"%string), 2) /\
  runHelp (applyAll ([hit 1] ++ boomRule :: [hit 3])) 0 (initial []) 0
    = (Raise (Thrown "BOOM!"%string), 2).
Proof.
  assert (Hpre : runHelp (applyAll [hit 1]) 0 (initial []) 0
                 = (Ok (seen [1]), 2)) by reflexivity.
  assert (Hchild : runHelp boomRule 0 (seen [1]) 2
                   = (Raise (Thrown "BOOM!"%string), 2)) by reflexivity.
  split; [exact Hpre |]. split; [exact Hchild |].
  exact (proj1 (@list_nodes_propagate_failure _ _ _ _ [hit 1] boomRule [hit 3]
                  0 (initial []) 0 (Thrown "BOOM!"%string) 2)
               (seen [1]) 2 Hpre Hchild).
Defined.

Lemma injectFacts_distributes_over_lists_witness :
  pureMapper bump S /\
  runHelp (injectFacts bump (applyAll [factsRule; factsRule])) 1 (initial []) 0
    = runHelp (applyAll (map (injectFacts bump) [factsRule; factsRule]))
              1 (initial []) 0.
Proof.
  assert (Hpure : pureMapper bump S) by (intros facts w; reflexivity).
  split; [exact Hpure |].
  exact (proj1 (@injectFacts_distributes_over_lists _ _ _ _ bump S Hpure
                  [factsRule; factsRule]) 1 (initial []) 0).
Defined.

Lemma unmatched_run_returns_initial_value_witness :
  detailedRun (applyFirst [miss 1; miss 2]) 0 [7] 0
    = (Ok (None, Some (unseen [7])), 2) /\
  foundMatch (unseen [7]) = false /\
  unseen [7] = {| foundMatch := false; value := [7] |} /\
  run (applyFirst [miss 1; miss 2]) 0 [7] 0 = (Ok (None, Some [7]), 2).
Proof.
  assert (Hrun : detailedRun (applyFirst [miss 1; miss 2]) 0 [7] 0
                 = (Ok (None, Some (unseen [7])), 2)) by reflexivity.
  assert (Hmiss : foundMatch (unseen [7]) = false) by reflexivity.
  split; [exact Hrun |]. split; [exact Hmiss |].
  exact (@unmatched_run_returns_initial_value _ _ _ _ _ _ _ _ _ _ Hrun Hmiss).
Defined.

Lemma indexjs_detailedRun_null_iff_unmatched_witness :
  IndexJs.detailedRun (applyFirst [miss 1; miss 2]) 0 [7] 0
    = (Ok {| foundMatch := false; value := None |}, 2) /\
  exists x,
    IndexJs.run (applyFirst [miss 1; miss 2]) 0 [7] 0 = (Ok x, 2) /\
    ((foundMatch {| foundMatch := false; value := @None Val |} = true /\
      value {| foundMatch := false; value := @None Val |} = Some x) \/
     ({| foundMatch := false; value := @None Val |}
        = {| foundMatch := false; value := None |} /\ x = [7])).
Proof.
  assert (Hrun : IndexJs.detailedRun (applyFirst [miss 1; miss 2]) 0 [7] 0
                 = (Ok {| foundMatch := false; value := None |}, 2))
    by reflexivity.
  split; [exact Hrun |].
  exact (@indexjs_detailedRun_null_iff_unmatched _ _ _ _ _ _ _ _ _ _ Hrun).
Defined.

Lemma feed_ignores_grouping_witness :
  (forall h, In h [[1]; [2; 3]] -> h <> []) /\
  [4; 5] <> [] /\
  List.length ([] ++ List.concat [[1]; [2; 3]]) < 4 /\
  4 <= List.length ([] ++ List.concat [[1]; [2; 3]] ++ [4; 5]) /\
  feed 0 (fun l => fold_right Nat.add 0 l) 4 [] ([[1]; [2; 3]] ++ [[4; 5]])
    = Returned 15.
Proof.
  assert (Hgroups : forall h, In h [[1]; [2; 3]] -> h <> []).
  { intros h [<- | [<- | []]]; discriminate. }
  assert (Hg : [4; 5] <> []) by discriminate.
  assert (Hshort : List.length ([] ++ List.concat [[1]; [2; 3]]) < 4)
    by (simpl; lia).
  assert (Hfull : 4 <= List.length ([] ++ List.concat [[1]; [2; 3]] ++ [4; 5]))
    by (simpl; lia).
  split; [exact Hgroups |]. split; [exact Hg |]. split; [exact Hshort |].
  split; [exact Hfull |].
  exact (@feed_ignores_grouping _ _ 0 (fun l => fold_right Nat.add 0 l) 4
           [[1]; [2; 3]] [] [4; 5] Hgroups Hg Hshort Hfull).
Defined.

Lemma feed_ends_in_a_call_witness :
  [@nil nat; []; []] <> [] /\
  3 <= List.length (@nil nat) + List.length [@nil nat; []; []] /\
  exists allArgs,
    feed 0 (fun l => fold_right Nat.add 0 l) 3 [] [[]; []; []]
      = Returned (fold_right Nat.add 0 allArgs) /\
    3 <= List.length allArgs.
Proof.
  assert (Hsome : [@nil nat; []; []] <> []) by discriminate.
  assert (Henough : 3 <= List.length (@nil nat) + List.length [@nil nat; []; []])
    by (simpl; lia).
  split; [exact Hsome |]. split; [exact Henough |].
  exact (@feed_ends_in_a_call _ _ 0 (fun l => fold_right Nat.add 0 l) 3
           [[]; []; []] [] Hsome Henough).
Defined.
